(** * health_track: the HTTP handlers of [src/index.ts] over ideal stable maps

    [src/index.ts] holds three revisions of one Express module.  Each
    revision registers its routes against five [StableBTreeMap]s (doctors,
    patients, appointments, patient records, medications).  The handlers are
    embedded here as pure functions from a request, the values the
    environment supplies ([uuidv4()], [ic.time()], [new Date()]) and the
    five maps, to the new maps and the HTTP response.

    - JavaScript values are a small inductive type; objects are member
      lists, numbers are integers (the handlers only test a number for its
      type and for being zero, and use it as a page or limit).
    - [StableBTreeMap] comes from the hosting platform (azle), not from
      this repository: it is taken as an ideal finite map, [gmap], from
      JavaScript values to stored objects. *)

From stdpp Require Import gmap strings list fin_maps countable pretty.
From Stdlib Require Import ZArith.

Set Warnings "-register-all".
#[local] Open Scope string_scope.
#[local] Open Scope Z_scope.

(** ** JavaScript values *)

(** [Date arg] is the object [new Date(arg)], kept symbolic in its
    argument. *)
Inductive value : Type :=
  | Undefined
  | Null
  | Bool (b : bool)
  | Num (n : Z)
  | Str (s : string)
  | Arr (items : list value)
  | Obj (members : list (string * value))
  | Date (arg : value).

(** An object is the list of its own enumerable members, in order. *)
Abbreviation object := (list (string * value)).

(** Induction that also descends into array items and object members. *)
Section value_nested_ind.
Variable P : value -> Prop.
Hypothesis P_undefined : P Undefined.
Hypothesis P_null : P Null.
Hypothesis P_bool : forall b, P (Bool b).
Hypothesis P_num : forall n, P (Num n).
Hypothesis P_str : forall s, P (Str s).
Hypothesis P_arr : forall l, Forall P l -> P (Arr l).
Hypothesis P_obj : forall o, Forall (fun kv => P (snd kv)) o -> P (Obj o).
Hypothesis P_date : forall v, P v -> P (Date v).

Fixpoint value_nested_ind (v : value) : P v :=
  match v with
  | Undefined => P_undefined
  | Null => P_null
  | Bool b => P_bool b
  | Num n => P_num n
  | Str s => P_str s
  | Arr l =>
      P_arr l ((fix items (l : list value) : Forall P l :=
                  match l with
                  | [] => List.Forall_nil _
                  | x :: t => @List.Forall_cons _ P x t (value_nested_ind x) (items t)
                  end) l)
  | Obj o =>
      P_obj o ((fix members (o : object) : Forall (fun kv => P (snd kv)) o :=
                  match o with
                  | [] => List.Forall_nil _
                  | kv :: t =>
                      @List.Forall_cons _ (fun kv => P (snd kv)) kv t
                        (value_nested_ind (snd kv)) (members t)
                  end) o)
  | Date a => P_date a (value_nested_ind a)
  end.
End value_nested_ind.

(** Values are countable (through stdpp's generic trees), so they can key a
    [gmap]: at run time a map key is whatever [entity.id] evaluates to. *)
Definition value_leaf : Type := bool + Z + string.

Fixpoint value_enc (v : value) : gen_tree value_leaf :=
  match v with
  | Undefined => GenNode 0 []
  | Null => GenNode 1 []
  | Bool b => GenLeaf (inl (inl b))
  | Num n => GenLeaf (inl (inr n))
  | Str s => GenLeaf (inr s)
  | Arr l => GenNode 2 (map value_enc l)
  | Obj o =>
      GenNode 3 (map (fun kv => GenNode 5 [GenLeaf (inr (fst kv)); value_enc (snd kv)]) o)
  | Date a => GenNode 4 [value_enc a]
  end.

Fixpoint value_dec (t : gen_tree value_leaf) : value :=
  match t with
  | GenLeaf (inl (inl b)) => Bool b
  | GenLeaf (inl (inr n)) => Num n
  | GenLeaf (inr s) => Str s
  | GenNode 1 [] => Null
  | GenNode 2 l => Arr (map value_dec l)
  | GenNode 3 l =>
      Obj (map (fun m => match m with
                         | GenNode _ [GenLeaf (inr k); t] => (k, value_dec t)
                         | _ => ("", Undefined)
                         end) l)
  | GenNode 4 [a] => Date (value_dec a)
  | _ => Undefined
  end.

Lemma value_dec_enc (v : value) : value_dec (value_enc v) = v.
Proof.
  induction v as [| | | | |l IH|o IH|a IH] using value_nested_ind;
    simpl; try reflexivity.
  - f_equal. rewrite map_map.
    induction IH as [|x l Hx _ IHl]; simpl; [reflexivity|].
    by rewrite Hx, IHl.
  - f_equal. rewrite map_map.
    induction IH as [|[k x] o Hx _ IHo]; simpl; [reflexivity|].
    simpl in Hx. by rewrite Hx, IHo.
  - by rewrite IH.
Qed.

#[global] Instance value_eq_dec : EqDecision value.
Proof.
  intros a b. destruct (decide (value_enc a = value_enc b)) as [E|E].
  - left. rewrite <- (value_dec_enc a), <- (value_dec_enc b). by rewrite E.
  - right. intros ->. by apply E.
Defined.

#[global] Instance value_countable : Countable value.
Proof. apply (inj_countable' value_enc value_dec value_dec_enc). Defined.

(** *** Objects: property read, property write, spread *)

(** [JSON.parse] lets a later member shadow an earlier one of the same
    name, so a read returns the last binding of the key. *)
Fixpoint lookup_member (k : string) (o : object) : option value :=
  match o with
  | [] => None
  | (k', v) :: rest =>
      match lookup_member k rest with
      | Some w => Some w
      | None => if String.eqb k' k then Some v else None
      end
  end.

(** [o.k]: a missing property reads as [undefined]. *)
Definition prop (o : object) (k : string) : value :=
  default Undefined (lookup_member k o).

Definition has_member (k : string) (o : object) : bool :=
  existsb (fun kv => String.eqb (fst kv) k) o.

(** [o.k = v]: an existing property keeps its place, a new one is
    appended.  (JavaScript lists integer-like keys first; the handlers
    only read members by name.) *)
Definition set_member (k : string) (v : value) (o : object) : object :=
  if has_member k o
  then map (fun kv => if String.eqb (fst kv) k then (k, v) else kv) o
  else o ++ [(k, v)].

(** [{ ...target, ...src }]: the members of [src] are written onto
    [target] one by one, in order. *)
Definition spread (target src : object) : object :=
  fold_left (fun acc kv => set_member (fst kv) (snd kv) acc) src target.

(** Truthiness, [typeof] and [Array.isArray]. *)
Definition truthy (v : value) : bool :=
  match v with
  | Undefined | Null => false
  | Bool b => b
  | Num n => negb (n =? 0)
  | Str s => negb (String.eqb s "")
  | Arr _ | Obj _ | Date _ => true
  end.

Definition typeof (v : value) : string :=
  match v with
  | Undefined => "undefined"
  | Bool _ => "boolean"
  | Num _ => "number"
  | Str _ => "string"
  | Null | Arr _ | Obj _ | Date _ => "object"
  end.

Definition isArray (v : value) : bool :=
  match v with Arr _ => true | _ => false end.

(** *** Request bodies *)

(** [express.json()] in its default strict mode hands the handler an
    object or an array; a request without a JSON body gives [{}], and a
    body that does not parse never reaches a handler. *)
Inductive reqbody : Type :=
  | BodyObj (members : object)
  | BodyArr (items : list value).

(** The own enumerable properties: an array has its indices as keys. *)
Definition own_props (b : reqbody) : object :=
  match b with
  | BodyObj o => o
  | BodyArr l => imap (fun i v => (pretty (N.of_nat i), v)) l
  end.

(** [req.body.k], for the field names the handlers read (none of them is
    [length] or a prototype property). *)
Definition body_prop (b : reqbody) (k : string) : value :=
  prop (own_props b) k.

(** ** [parseInt] and [Array.prototype.slice] *)

(** Strings are read as UTF-8 bytes.  The white space [parseInt] skips:
    TAB, LF, VT, FF, CR, SP, and the encodings of U+00A0, U+1680,
    U+2000..U+200A, U+2028, U+2029, U+202F, U+205F, U+3000, U+FEFF. *)
Definition code (a : Ascii.ascii) : N := Ascii.N_of_ascii a.

Definition space1 (a : N) : bool :=
  ((9 <=? a) && (a <=? 13) || (a =? 32))%N.

Definition space2 (a b : N) : bool :=
  ((a =? 194) && (b =? 160))%N.

Definition space3 (a b c : N) : bool :=
  ((a =? 225) && (b =? 154) && (c =? 128)
   || (a =? 226) && (b =? 128)
      && ((128 <=? c) && (c <=? 138) || (c =? 168) || (c =? 169) || (c =? 175))
   || (a =? 226) && (b =? 129) && (c =? 159)
   || (a =? 227) && (b =? 128) && (c =? 128)
   || (a =? 239) && (b =? 187) && (c =? 191))%N.

Fixpoint trim_start (s : string) : string :=
  match s with
  | String a rest =>
      if space1 (code a) then trim_start rest
      else
        match rest with
        | String b rest2 =>
            if space2 (code a) (code b) then trim_start rest2
            else
              match rest2 with
              | String c rest3 =>
                  if space3 (code a) (code b) (code c) then trim_start rest3 else s
              | EmptyString => s
              end
        | EmptyString => s
        end
  | EmptyString => s
  end.

(** The value of a digit or letter as a digit of some radix. *)
Definition digit_value (a : N) : option Z :=
  if ((48 <=? a) && (a <=? 57))%N then Some (Z.of_N a - 48)
  else if ((97 <=? a) && (a <=? 122))%N then Some (Z.of_N a - 87)
  else if ((65 <=? a) && (a <=? 90))%N then Some (Z.of_N a - 55)
  else None.

(** The integer written by the longest prefix of radix-[R] digits; [acc]
    is [None] as long as no digit has been read. *)
Fixpoint digits (R : Z) (s : string) (acc : option Z) : option Z :=
  match s with
  | String a rest =>
      match digit_value (code a) with
      | Some d => if d <? R then digits R rest (Some (R * default 0 acc + d)) else acc
      | None => acc
      end
  | EmptyString => acc
  end.

Definition starts_with (p s : string) : bool := String.prefix p s.

Definition drop_chars (n : nat) (s : string) : string :=
  String.substring n (String.length s - n) s.

(** [parseInt(q)] with no radix, where [q] is a query parameter as a
    string (a repeated parameter reads as its items joined by commas):
    [None] is an absent parameter ([undefined], which reads as the text
    "undefined"); the result [None] is [NaN].  The Number is kept as the
    exact integer; JavaScript rounds it to a double beyond 2^53. *)
Definition parseInt (q : option string) : option Z :=
  let s1 := trim_start (default "undefined" q) in
  let sign := if starts_with "-" s1 then -1 else 1 in
  let s2 := if starts_with "+" s1 || starts_with "-" s1 then drop_chars 1 s1 else s1 in
  let hex := starts_with "0x" s2 || starts_with "0X" s2 in
  let R := if hex then 16 else 10 in
  let s3 := if hex then drop_chars 2 s2 else s2 in
  match digits R s3 None with
  | Some n => Some (sign * n)
  | None => None
  end.

(** [parseInt(q) || d]: [NaN] and zero are falsy. *)
Definition or_default (r : option Z) (d : Z) : Z :=
  match r with
  | Some n => if n =? 0 then d else n
  | None => d
  end.

(** [l.slice(start, end)]: a negative index counts from the end, and both
    indices are clamped to the length. *)
Definition slice {A : Type} (l : list A) (start stop : Z) : list A :=
  let len := Z.of_nat (length l) in
  let k := if start <? 0 then Z.max (len + start) 0 else Z.min start len in
  let final := if stop <? 0 then Z.max (len + stop) 0 else Z.min stop len in
  take (Z.to_nat (final - k)) (drop (Z.to_nat k) l).

(** ** The stable maps *)

(** The four methods of [StableBTreeMap] the handlers call.  [get] and
    [remove] answer with the library's [Opt], here [option]; the [Opt] that
    [insert] returns is dropped by every caller. *)
Definition get (m : gmap value object) (k : value) : option object := m !! k.

Definition insert (m : gmap value object) (k : value) (v : object) : gmap value object :=
  <[k := v]> m.

Definition remove (m : gmap value object) (k : value) : gmap value object * option object :=
  (delete k m, m !! k).

(** [values()] lists the stored entities in the order of the B-tree; here
    it is the order of [map_to_list].  No statement below depends on which
    order it is. *)
Definition values (m : gmap value object) : list object := (map_to_list m).*2.

Inductive collection : Type :=
  | Doctors
  | Patients
  | Appointments
  | PatientRecords
  | Medications.

#[global] Instance collection_eq_dec : EqDecision collection.
Proof. solve_decision. Defined.

Record storages : Type := {
  doctorsStorage : gmap value object;
  patientsStorage : gmap value object;
  appointmentsStorage : gmap value object;
  patientRecordsStorage : gmap value object;
  medicationsStorage : gmap value object
}.

Definition storage (c : collection) (s : storages) : gmap value object :=
  match c with
  | Doctors => doctorsStorage s
  | Patients => patientsStorage s
  | Appointments => appointmentsStorage s
  | PatientRecords => patientRecordsStorage s
  | Medications => medicationsStorage s
  end.

Definition set_storage (c : collection) (m : gmap value object) (s : storages) : storages :=
  match c with
  | Doctors =>
      {| doctorsStorage := m; patientsStorage := patientsStorage s;
         appointmentsStorage := appointmentsStorage s;
         patientRecordsStorage := patientRecordsStorage s;
         medicationsStorage := medicationsStorage s |}
  | Patients =>
      {| doctorsStorage := doctorsStorage s; patientsStorage := m;
         appointmentsStorage := appointmentsStorage s;
         patientRecordsStorage := patientRecordsStorage s;
         medicationsStorage := medicationsStorage s |}
  | Appointments =>
      {| doctorsStorage := doctorsStorage s; patientsStorage := patientsStorage s;
         appointmentsStorage := m;
         patientRecordsStorage := patientRecordsStorage s;
         medicationsStorage := medicationsStorage s |}
  | PatientRecords =>
      {| doctorsStorage := doctorsStorage s; patientsStorage := patientsStorage s;
         appointmentsStorage := appointmentsStorage s;
         patientRecordsStorage := m;
         medicationsStorage := medicationsStorage s |}
  | Medications =>
      {| doctorsStorage := doctorsStorage s; patientsStorage := patientsStorage s;
         appointmentsStorage := appointmentsStorage s;
         patientRecordsStorage := patientRecordsStorage s;
         medicationsStorage := m |}
  end.

Definition no_storages : storages :=
  {| doctorsStorage := ∅; patientsStorage := ∅; appointmentsStorage := ∅;
     patientRecordsStorage := ∅; medicationsStorage := ∅ |}.

(** ** Requests, responses and the environment *)

(** What the environment hands to one request: the string the next
    [uuidv4()] returns, [ic.time()] in nanoseconds, and the milliseconds
    [new Date()] reads (one instant per request). *)
Record env : Type := { uuidv4 : string; time : Z; now : Z }.

(** [new Date(timestamp.valueOf() / 1000_000)], to the millisecond, with
    the quotient taken on integers; the code divides doubles, which can
    differ in the last millisecond. *)
Definition getCurrentDate (e : env) : value := Date (Num (time e / 1000000)).

(** [res.json(v)] or [res.send(text)], with the status set before. *)
Inductive payload : Type :=
  | Json (v : value)
  | Text (t : string).

Record response : Type := { status : Z; sent : payload }.

Definition json (code : Z) (v : value) : response := {| status := code; sent := Json v |}.
Definition send (code : Z) (t : string) : response := {| status := code; sent := Text t |}.

(** The route shapes of the three revisions; [id] is [req.params.id], the
    two options of [GET_pages] are [req.query.page] and [req.query.limit]. *)
Inductive request : Type :=
  | POST (c : collection) (body : reqbody)
  | GET_all (c : collection)
  | GET_id (c : collection) (id : string)
  | GET_pages (c : collection) (page limit : option string)
  | PUT (c : collection) (id : string) (body : reqbody)
  | DELETE (c : collection) (id : string)
  | GET_by_patient (c : collection) (id : string)
  | GET_by_doctor (c : collection) (id : string).

(** [v === id] for a string [id]. *)
Definition strict_eq_str (v : value) (id : string) : bool :=
  match v with
  | Str s => String.eqb s id
  | _ => false
  end.

Definition objects (l : list object) : value := Arr (map Obj l).

(** ** Revision 1 *)

Module Rev1.

(** [app.post] on each of the five collections:
    [{ id: uuidv4(), createdAt: getCurrentDate(), ...req.body }],
    stored under [entity.id]. *)
Definition post (c : collection) (e : env) (s : storages) (body : reqbody)
  : storages * response :=
  let entity :=
    spread [("id", Str (uuidv4 e)); ("createdAt", getCurrentDate e)] (own_props body) in
  (set_storage c (insert (storage c s) (prop entity "id") entity) s,
   json 200 (Obj entity)).

(** [app.get] on each collection: [res.json(storage.values())]. *)
Definition get_all (c : collection) (s : storages) : storages * response :=
  (s, json 200 (objects (values (storage c s)))).

(** [app.get("/appointments/:id")] *)
Definition get_appointment (s : storages) (appointmentId : string)
  : storages * response :=
  let appointmentOpt := get (appointmentsStorage s) (Str appointmentId) in
  match appointmentOpt with
  | None => (s, send 404 ("the appointment with id=" +:+ appointmentId +:+ " not found"))
  | Some appointment => (s, json 200 (Obj appointment))
  end.

(** [app.put("/appointments/:id")] *)
Definition put_appointment (e : env) (s : storages) (appointmentId : string)
    (body : reqbody) : storages * response :=
  let appointmentOpt := get (appointmentsStorage s) (Str appointmentId) in
  match appointmentOpt with
  | None =>
      (s, send 400 ("couldn't update an appointment with id=" +:+ appointmentId
                    +:+ ". appointment not found"))
  | Some appointment =>
      let updatedAppointment :=
        set_member "updatedAt" (getCurrentDate e)
          (spread (spread [] appointment) (own_props body)) in
      (set_storage Appointments
         (insert (appointmentsStorage s) (prop appointment "id") updatedAppointment) s,
       json 200 (Obj updatedAppointment))
  end.

(** [app.delete("/appointments/:id")] *)
Definition delete_appointment (s : storages) (appointmentId : string)
  : storages * response :=
  let '(m, deletedAppointment) := remove (appointmentsStorage s) (Str appointmentId) in
  match deletedAppointment with
  | None =>
      (set_storage Appointments m s,
       send 400 ("couldn't delete an appointment with id=" +:+ appointmentId
                 +:+ ". appointment not found"))
  | Some appointment => (set_storage Appointments m s, json 200 (Obj appointment))
  end.

(** [/patient-records/patient/:id], [/patient-records/doctor/:id] and
    [/medications/patient/:id]: [values().filter(r => r.<key> === id)]. *)
Definition get_by (c : collection) (key : string) (s : storages) (id : string)
  : storages * response :=
  (s, json 200 (objects (List.filter (fun record => strict_eq_str (prop record key) id)
                           (values (storage c s))))).

(** The routes the revision registers; any other request falls through
    to Express (answer [None]). *)
Definition handle (e : env) (s : storages) (r : request) : option (storages * response) :=
  match r with
  | POST c body => Some (post c e s body)
  | GET_all c => Some (get_all c s)
  | GET_id Appointments id => Some (get_appointment s id)
  | PUT Appointments id body => Some (put_appointment e s id body)
  | DELETE Appointments id => Some (delete_appointment s id)
  | GET_by_patient PatientRecords id => Some (get_by PatientRecords "patientId" s id)
  | GET_by_doctor PatientRecords id => Some (get_by PatientRecords "doctorId" s id)
  | GET_by_patient Medications id => Some (get_by Medications "patientId" s id)
  | _ => None
  end.

End Rev1.

(** ** Revision 2 *)

(** What [get] and [remove] hand back depends on the azle release, which
    the repository does not pin: the [Opt] record [{Some: v}] / [{None: null}]
    (the shape revisions 1 and 3 test with ["None" in]), or the value
    itself / [null].  Revision 2 tests the result for truthiness; both
    shapes are covered. *)
Inductive opt_shape : Type :=
  | OptRecord
  | Nullable.

Definition opt_value (shape : opt_shape) (r : option object) : value :=
  match shape, r with
  | OptRecord, Some v => Obj [("Some", Obj v)]
  | OptRecord, None => Obj [("None", Null)]
  | Nullable, Some v => Obj v
  | Nullable, None => Null
  end.

Module Rev2.

(** The class constructors; [new Date()] reads [now]. *)
Definition Doctor (e : env) (name specialty : value) : object :=
  [("id", Str (uuidv4 e)); ("name", name); ("specialty", specialty);
   ("createdAt", Date (Num (now e)))].

Definition Patient (e : env) (name age gender : value) : object :=
  [("id", Str (uuidv4 e)); ("name", name); ("age", age); ("gender", gender);
   ("createdAt", Date (Num (now e)))].

Definition Appointment (e : env) (patientId doctorId dateTime duration description : value)
  : object :=
  [("id", Str (uuidv4 e)); ("patientId", patientId); ("doctorId", doctorId);
   ("dateTime", dateTime); ("duration", duration); ("description", description);
   ("createdAt", Date (Num (now e))); ("updatedAt", Null)].

Definition PatientRecord (e : env) (patientId doctorId diagnosis treatment medications : value)
  : object :=
  [("id", Str (uuidv4 e)); ("patientId", patientId); ("doctorId", doctorId);
   ("diagnosis", diagnosis); ("treatment", treatment); ("medications", medications);
   ("createdAt", Date (Num (now e)))].

Definition Medication (e : env) (name dosage frequency patientId : value) : object :=
  [("id", Str (uuidv4 e)); ("name", name); ("dosage", dosage);
   ("frequency", frequency); ("patientId", patientId);
   ("createdAt", Date (Num (now e)))].

(** The entity each [app.post] builds from the destructured body. *)
Definition construct (c : collection) (e : env) (body : reqbody) : object :=
  let f := body_prop body in
  match c with
  | Doctors => Doctor e (f "name") (f "specialty")
  | Patients => Patient e (f "name") (f "age") (f "gender")
  | Appointments =>
      Appointment e (f "patientId") (f "doctorId") (Date (f "dateTime"))
        (f "duration") (f "description")
  | PatientRecords =>
      PatientRecord e (f "patientId") (f "doctorId") (f "diagnosis")
        (f "treatment") (f "medications")
  | Medications => Medication e (f "name") (f "dosage") (f "frequency") (f "patientId")
  end.

Definition post (c : collection) (e : env) (s : storages) (body : reqbody)
  : storages * response :=
  let entity := construct c e body in
  (set_storage c (insert (storage c s) (prop entity "id") entity) s,
   json 200 (Obj entity)).

Definition get_all (c : collection) (s : storages) : storages * response :=
  (s, json 200 (objects (values (storage c s)))).

(** The three filter routes, as in revision 1. *)
Definition get_by (c : collection) (key : string) (s : storages) (id : string)
  : storages * response :=
  (s, json 200 (objects (List.filter (fun record => strict_eq_str (prop record key) id)
                           (values (storage c s))))).

Section with_shape.
Variable shape : opt_shape.

(** [app.get("/appointments/:id")] *)
Definition get_appointment (s : storages) (appointmentId : string)
  : storages * response :=
  let appointment := opt_value shape (get (appointmentsStorage s) (Str appointmentId)) in
  if truthy appointment then (s, json 200 appointment)
  else (s, send 404 ("Appointment with ID " +:+ appointmentId +:+ " not found")).

(** [app.put("/appointments/:id")]: a fresh [Appointment], with its own
    [uuidv4()], is stored under the path id. *)
Definition put_appointment (e : env) (s : storages) (appointmentId : string)
    (body : reqbody) : storages * response :=
  let appointment := opt_value shape (get (appointmentsStorage s) (Str appointmentId)) in
  if truthy appointment then
    let updatedAppointment :=
      set_member "updatedAt" (Date (Num (now e))) (construct Appointments e body) in
    (set_storage Appointments
       (insert (appointmentsStorage s) (Str appointmentId) updatedAppointment) s,
     json 200 (Obj updatedAppointment))
  else (s, send 404 ("Appointment with ID " +:+ appointmentId +:+ " not found")).

(** [app.delete("/appointments/:id")] *)
Definition delete_appointment (s : storages) (appointmentId : string)
  : storages * response :=
  let '(m, removed) := remove (appointmentsStorage s) (Str appointmentId) in
  let appointment := opt_value shape removed in
  if truthy appointment then (set_storage Appointments m s, json 200 appointment)
  else (set_storage Appointments m s,
        send 404 ("Appointment with ID " +:+ appointmentId +:+ " not found")).

Definition handle (e : env) (s : storages) (r : request)
  : option (storages * response) :=
  match r with
  | POST c body => Some (post c e s body)
  | GET_all c => Some (get_all c s)
  | GET_id Appointments id => Some (get_appointment s id)
  | PUT Appointments id body => Some (put_appointment e s id body)
  | DELETE Appointments id => Some (delete_appointment s id)
  | GET_by_patient PatientRecords id => Some (get_by PatientRecords "patientId" s id)
  | GET_by_doctor PatientRecords id => Some (get_by PatientRecords "doctorId" s id)
  | GET_by_patient Medications id => Some (get_by Medications "patientId" s id)
  | _ => None
  end.
End with_shape.

End Rev2.

(** ** Revision 3 *)

(** The [catch] branches of this revision answer 500 when [uuidv4] or a map
    method throws; the ideal maps never do, so the branches are left out. *)
Module Rev3.

(** The words the response texts and envelopes are built from. *)
Definition singular (c : collection) : string :=
  match c with
  | Doctors => "Doctor"
  | Patients => "Patient"
  | Appointments => "Appointment"
  | PatientRecords => "Patient record"
  | Medications => "Medication"
  end.

Definition plural (c : collection) : string :=
  match c with
  | Doctors => "Doctors"
  | Patients => "Patients"
  | Appointments => "Appointments"
  | PatientRecords => "Patient records"
  | Medications => "Medications"
  end.

Definition key_one (c : collection) : string :=
  match c with
  | Doctors => "doctor"
  | Patients => "patient"
  | Appointments => "appointment"
  | PatientRecords => "patientRecord"
  | Medications => "medication"
  end.

Definition key_many (c : collection) : string :=
  match c with
  | Doctors => "doctors"
  | Patients => "patients"
  | Appointments => "appointments"
  | PatientRecords => "patientRecords"
  | Medications => "medications"
  end.

Definition invalid_input (put : bool) (c : collection) : string :=
  match c with
  | Doctors =>
      "Invalid input: Ensure 'name' and 'speciality' are provided and are strings."
  | Patients =>
      if put
      then "Invalid input: Ensure 'name' is a string, 'age' is a number and gender is a string."
      else "Invalid input: Ensure 'name' is a string, 'age' is a number and 'gender' is a string."
  | Appointments =>
      "Invalid input: Ensure 'patientId', 'doctorId', 'dateTime', 'duration' and 'description' are provided and are of the correct type."
  | PatientRecords =>
      "Invalid input: Ensure 'patientId', 'doctorId', 'diagnosis', 'treatment' and 'medications' are provided and are of the correct type."
  | Medications =>
      "Invalid input: Ensure 'name', 'dosage', 'frequency' and 'patientId' are provided and are of the correct type."
  end.

(** [!req.body.k || typeof req.body.k !== "string"] and its siblings. *)
Definition bad_string (b : reqbody) (k : string) : bool :=
  negb (truthy (body_prop b k)) || negb (String.eqb (typeof (body_prop b k)) "string").

Definition bad_number (b : reqbody) (k : string) : bool :=
  negb (truthy (body_prop b k)) || negb (String.eqb (typeof (body_prop b k)) "number").

Definition bad_array (b : reqbody) (k : string) : bool :=
  negb (truthy (body_prop b k)) || negb (isArray (body_prop b k)).

(** The condition of the validating [if] that opens each [app.post] and
    [app.put]. *)
Definition invalid (c : collection) (b : reqbody) : bool :=
  match c with
  | Doctors => bad_string b "name" || bad_string b "speciality"
  | Patients => bad_string b "name" || bad_number b "age" || bad_string b "gender"
  | Appointments =>
      bad_string b "patientId" || bad_string b "doctorId" || bad_string b "dateTime"
      || bad_number b "duration" || bad_string b "description"
  | PatientRecords =>
      bad_string b "patientId" || bad_string b "doctorId" || bad_string b "diagnosis"
      || bad_string b "treatment" || bad_array b "medications"
  | Medications =>
      bad_string b "name" || bad_string b "dosage" || bad_string b "frequency"
      || bad_string b "patientId"
  end.

(** The [Doctor] class, whose constructor this revision keeps. *)
Definition Doctor (e : env) (name speciality : value) : object :=
  [("id", Str (uuidv4 e)); ("name", name); ("speciality", speciality);
   ("createdAt", getCurrentDate e)].

(** The entity a valid [app.post] builds: [new Doctor(..)] for doctors,
    [{ id: uuidv4(), createdAt: getCurrentDate(), ...req.body }] for the
    other four. *)
Definition construct (c : collection) (e : env) (body : reqbody) : object :=
  match c with
  | Doctors => Doctor e (body_prop body "name") (body_prop body "speciality")
  | _ => spread [("id", Str (uuidv4 e)); ("createdAt", getCurrentDate e)] (own_props body)
  end.

Definition not_found (c : collection) (id : string) : response :=
  json 404 (Obj [("status", Num 404);
                 ("message", Str (singular c +:+ " with id = " +:+ id +:+ " not found"))]).

Definition post (c : collection) (e : env) (s : storages) (body : reqbody)
  : storages * response :=
  if invalid c body then
    (s, json 400 (Obj [("status", Num 400); ("error", Str (invalid_input false c))]))
  else
    let entity := construct c e body in
    (set_storage c (insert (storage c s) (prop entity "id") entity) s,
     json 201 (Obj [("status", Num 201);
                    ("message", Str (singular c +:+ " created successfully"));
                    (key_one c, Obj entity)])).

Definition get_all (c : collection) (s : storages) : storages * response :=
  (s, json 200 (Obj [("status", Num 200);
                     ("message", Str (plural c +:+ " retrieved successfully"));
                     (key_many c, objects (values (storage c s)))])).

Definition get_id (c : collection) (s : storages) (id : string) : storages * response :=
  match get (storage c s) (Str id) with
  | None => (s, not_found c id)
  | Some entity =>
      (s, json 200 (Obj [("status", Num 200);
                         ("message", Str (singular c +:+ " retrieved successfully"));
                         (key_one c, Obj entity)]))
  end.

(** [/<collection>/paginate/pages] *)
Definition paginate (c : collection) (s : storages) (qpage qlimit : option string)
  : storages * response :=
  let page := or_default (parseInt qpage) 1 in
  let limit := or_default (parseInt qlimit) 10 in
  let startIndex := (page - 1) * limit in
  let endIndex := page * limit in
  let results := slice (values (storage c s)) startIndex endIndex in
  (s, json 200 (objects results)).

Definition put (c : collection) (e : env) (s : storages) (id : string) (body : reqbody)
  : storages * response :=
  if invalid c body then
    (s, json 400 (Obj [("error", Str (invalid_input true c))]))
  else
    match get (storage c s) (Str id) with
    | None => (s, not_found c id)
    | Some entity =>
        let updated :=
          set_member "updatedAt" (getCurrentDate e)
            (spread (spread [] entity) (own_props body)) in
        (set_storage c (insert (storage c s) (prop entity "id") updated) s,
         json 200 (Obj [("status", Num 200);
                        ("message", Str (singular c +:+ " updated successfully"));
                        (key_one c, Obj updated)]))
    end.

Definition delete (c : collection) (s : storages) (id : string) : storages * response :=
  let '(m, deleted) := remove (storage c s) (Str id) in
  match deleted with
  | None => (set_storage c m s, not_found c id)
  | Some entity =>
      (set_storage c m s,
       json 200 (Obj [("status", Num 200);
                      ("message", Str (singular c +:+ " deleted successfully"));
                      (key_one c, Obj entity)]))
  end.

(** [/patient-records/doctor/:id], [/patient-records/patient/:id] and
    [/medications/patient/:id]: a [get] on the collection with the path
    id as key. *)
Definition get_for (c : collection) (whom : string) (s : storages) (id : string)
  : storages * response :=
  match get (storage c s) (Str id) with
  | None =>
      (s, json 404 (Obj [("status", Num 404);
                         ("message", Str (plural c +:+ " for " +:+ whom +:+ " with id = "
                                          +:+ id +:+ " not found"))]))
  | Some found =>
      (s, json 200 (Obj [("status", Num 200);
                         ("message", Str (plural c +:+ " retrieved successfully"));
                         (key_many c, Obj found)]))
  end.

(** The routes of the revision: no [GET /:id] for patient records and
    medications, no [PUT] and [DELETE] for medications. *)
Definition handle (e : env) (s : storages) (r : request) : option (storages * response) :=
  match r with
  | POST c body => Some (post c e s body)
  | GET_all c => Some (get_all c s)
  | GET_pages c page limit => Some (paginate c s page limit)
  | GET_id c id =>
      match c with
      | Doctors | Patients | Appointments => Some (get_id c s id)
      | PatientRecords | Medications => None
      end
  | PUT c id body =>
      match c with
      | Medications => None
      | _ => Some (put c e s id body)
      end
  | DELETE c id =>
      match c with
      | Medications => None
      | _ => Some (delete c s id)
      end
  | GET_by_doctor PatientRecords id => Some (get_for PatientRecords "doctor" s id)
  | GET_by_patient PatientRecords id => Some (get_for PatientRecords "patient" s id)
  | GET_by_patient Medications id => Some (get_for Medications "patient" s id)
  | GET_by_doctor _ _ | GET_by_patient _ _ => None
  end.

End Rev3.

(** ** Serving requests *)

Inductive revision : Type :=
  | R1
  | R2 (shape : opt_shape)
  | R3.

Definition handle (rev : revision) (e : env) (s : storages) (r : request)
  : option (storages * response) :=
  match rev with
  | R1 => Rev1.handle e s r
  | R2 shape => Rev2.handle shape e s r
  | R3 => Rev3.handle e s r
  end.

(** The maps after a sequence of requests, each with its environment; a
    request no route matches leaves them alone. *)
Fixpoint run (rev : revision) (s : storages) (reqs : list (env * request)) : storages :=
  match reqs with
  | [] => s
  | (e, r) :: rest =>
      run rev (match handle rev e s r with Some (s', _) => s' | None => s end) rest
  end.

(** The collection a request addresses. *)
Definition target (r : request) : collection :=
  match r with
  | POST c _ | GET_all c | GET_id c _ | GET_pages c _ _ | PUT c _ _ | DELETE c _
  | GET_by_patient c _ | GET_by_doctor c _ => c
  end.

(** ** The properties the specification words *)

(** The fields the entity classes declare next to [id] and [createdAt],
    with the types the validation of revision 3 asks for. *)
Inductive field_type : Type :=
  | TString
  | TNumber
  | TArray.

Definition has_type (v : value) (t : field_type) : bool :=
  match t, v with
  | TString, Str _ | TNumber, Num _ | TArray, Arr _ => true
  | _, _ => false
  end.

Definition required (c : collection) : list (string * field_type) :=
  match c with
  | Doctors => [("name", TString); ("speciality", TString)]
  | Patients => [("name", TString); ("age", TNumber); ("gender", TString)]
  | Appointments =>
      [("patientId", TString); ("doctorId", TString); ("dateTime", TString);
       ("duration", TNumber); ("description", TString)]
  | PatientRecords =>
      [("patientId", TString); ("doctorId", TString); ("diagnosis", TString);
       ("treatment", TString); ("medications", TArray)]
  | Medications =>
      [("name", TString); ("dosage", TString); ("frequency", TString);
       ("patientId", TString)]
  end.

(** A body misses a required field or carries it with the wrong type. *)
Definition ill_typed (c : collection) (body : reqbody) : Prop :=
  exists k t, (k, t) ∈ required c /\ has_type (body_prop body k) t = false.

(** A first character after which [parseInt] may still read a number:
    white space (or a byte of a longer UTF-8 sequence), a sign, a decimal
    digit.  A text that starts otherwise is not numeric. *)
Definition may_start_number (a : Ascii.ascii) : bool :=
  ((128 <=? code a) || space1 (code a) || (code a =? 43) || (code a =? 45)
   || (48 <=? code a) && (code a <=? 57))%N.

(** Every stored entity has its [id] equal to the key it is stored
    under. *)
Definition id_is_key (m : gmap value object) : Prop :=
  forall k entity, m !! k = Some entity -> prop entity "id" = k.

(** The stored entities a filter route is to return. *)
Definition related (key id : string) (m : gmap value object) : list object :=
  List.filter (fun record => strict_eq_str (prop record key) id) (values m).

(** ** Sample data *)

Definition env1 : env := {| uuidv4 := "1b9d6bcd"; time := 1700000000000000000; now := 1700000000000 |}.
Definition env2 : env := {| uuidv4 := "6ec0bd7f"; time := 1700000001000000000; now := 1700000001000 |}.
Definition env3 : env := {| uuidv4 := "9c5b94b1"; time := 1700000002000000000; now := 1700000002000 |}.
Definition env4 : env := {| uuidv4 := "3f2a7c10"; time := 1700000003000000000; now := 1700000003000 |}.

Definition doctor_body (name : string) : reqbody :=
  BodyObj [("name", Str name); ("speciality", Str "cardiology")].

Definition patient_body : reqbody :=
  BodyObj [("name", Str "Ann"); ("age", Num 30); ("gender", Str "F")].

Definition appointment_body : reqbody :=
  BodyObj [("patientId", Str "no-such-patient"); ("doctorId", Str "no-such-doctor");
           ("dateTime", Str "2024-05-01T10:00:00Z"); ("duration", Num 30);
           ("description", Str "check-up")].

Definition record_body : reqbody :=
  BodyObj [("patientId", Str "p1"); ("doctorId", Str "d1"); ("diagnosis", Str "flu");
           ("treatment", Str "rest"); ("medications", Arr [Str "paracetamol"])].

Definition other_patient_body : reqbody :=
  BodyObj [("name", Str "Bob"); ("age", Num 41); ("gender", Str "M")].

(** [body] with one more member written after the others. *)
Definition with_member (body : reqbody) (k : string) (v : value) : reqbody :=
  BodyObj (own_props body ++ [(k, v)]).

(** Revision 3 after one patient record was created. *)
Definition one_record : storages :=
  run R3 no_storages [(env1, POST PatientRecords record_body)].

(** Revision 3 after one doctor was created. *)
Definition one_doctor : storages :=
  run R3 no_storages [(env1, POST Doctors (doctor_body "Who"))].

(** Revision 3 after two doctors were created and the first was updated
    with a body that carries the id of the second. *)
Definition two_doctors : storages :=
  run R3 no_storages
    [(env1, POST Doctors (doctor_body "Who"));
     (env2, POST Doctors (doctor_body "Strange"));
     (env3, PUT Doctors "1b9d6bcd" (with_member (doctor_body "Who") "id" (Str "6ec0bd7f")))].

(** Revision 3 after a doctor and then a patient were created, and two
    requests that come later. *)
Definition patient_created : storages :=
  run R3 one_doctor [(env2, POST Patients patient_body)].

(** The same, after one more patient was created with a body that
    carries the id of the first. *)
Definition patient_replaced : storages :=
  run R3 patient_created
    [(env3, POST Patients (with_member other_patient_body "id" (Str "6ec0bd7f")))].

Definition later_requests : list (env * request) :=
  [(env3, POST Doctors (doctor_body "Strange")); (env4, GET_all Patients)].

(** Revision 2 after an appointment was created and then updated. *)
Definition updated_appointment (shape : opt_shape) : storages :=
  run (R2 shape) no_storages
    [(env1, POST Appointments appointment_body);
     (env2, PUT Appointments "1b9d6bcd" appointment_body)].

(** Revision 3 after a doctor was created and then updated with a body
    that carries an id. *)
Definition updated_doctor : storages :=
  run R3 no_storages
    [(env1, POST Doctors (doctor_body "Who"));
     (env2, PUT Doctors "1b9d6bcd" (with_member (doctor_body "Who") "id" (Str "elsewhere")))].

(** ** Kinds of requests *)

(** The requests that only read: every [GET]. *)
Definition read_only (r : request) : bool :=
  match r with
  | GET_all _ | GET_id _ _ | GET_pages _ _ _ | GET_by_patient _ _ | GET_by_doctor _ _ => true
  | POST _ _ | PUT _ _ _ | DELETE _ _ => false
  end.

Definition is_put (r : request) : bool :=
  match r with
  | PUT _ _ _ => true
  | _ => false
  end.

(** What the validating [if] of revision 3 lets through for one field: a
    string that is not empty, a number that is not zero, an array. *)
Definition accepted (v : value) (t : field_type) : bool :=
  match t, v with
  | TString, Str s => negb (String.eqb s "")
  | TNumber, Num n => negb (n =? 0)
  | TArray, Arr _ => true
  | _, _ => false
  end.

(** Every entity a revision-3 map holds would pass the validation of its
    collection. *)
Definition stored_valid (s : storages) : Prop :=
  forall c k entity, storage c s !! k = Some entity -> Rev3.invalid c (BodyObj entity) = false.

(** * Properties *)

(** ** Objects *)

Lemma lookup_member_app (k k' : string) (v : value) (o : object) :
  lookup_member k (o ++ [(k', v)]) =
  if String.eqb k' k then Some v else lookup_member k o.
Proof.
  induction o as [|[k0 v0] o IH]; simpl.
  - reflexivity.
  - rewrite IH. destruct (String.eqb k' k); reflexivity.
Qed.

Lemma has_member_false (k : string) (o : object) :
  has_member k o = false -> lookup_member k o = None.
Proof.
  induction o as [|[k0 v0] o IH]; simpl; [reflexivity|].
  intros [H0 Ho]%orb_false_iff. by rewrite (IH Ho), H0.
Qed.

Lemma lookup_member_replace (k k' : string) (v : value) (o : object) :
  lookup_member k' (map (fun kv => if String.eqb (fst kv) k then (k, v) else kv) o) =
  if String.eqb k k' then (if has_member k o then Some v else None)
  else lookup_member k' o.
Proof.
  induction o as [|[k0 v0] o IH]; simpl.
  - by destruct (String.eqb k k').
  - destruct (String.eqb k0 k) eqn:E0; simpl; rewrite IH;
      destruct (String.eqb k k') eqn:Ek.
    + by destruct (has_member k o).
    + apply String.eqb_eq in E0 as ->. by rewrite Ek.
    + apply String.eqb_eq in Ek as <-. rewrite E0.
      by destruct (has_member k o).
    + reflexivity.
Qed.

(** A property that was just written reads back; every other property
    reads as before. *)
Lemma lookup_set_member (k k' : string) (v : value) (o : object) :
  lookup_member k' (set_member k v o) =
  if String.eqb k k' then Some v else lookup_member k' o.
Proof.
  unfold set_member. destruct (has_member k o) eqn:Hk.
  - rewrite lookup_member_replace, Hk. reflexivity.
  - rewrite lookup_member_app. destruct (String.eqb k k'); reflexivity.
Qed.

(** A spread property wins over the target's. *)
Lemma lookup_spread (k : string) (src target : object) :
  lookup_member k (spread target src) =
  match lookup_member k src with
  | Some v => Some v
  | None => lookup_member k target
  end.
Proof.
  unfold spread. revert target.
  induction src as [|[k0 v0] src IH]; intros target; simpl; [reflexivity|].
  rewrite IH, lookup_set_member.
  destruct (lookup_member k src); [reflexivity|].
  destruct (String.eqb k0 k); reflexivity.
Qed.

(** ** The five maps *)

Lemma storage_set_storage (c : collection) (m : gmap value object) (s : storages) :
  storage c (set_storage c m s) = m.
Proof. by destruct c. Qed.

Lemma storage_set_storage_ne (c c' : collection) (m : gmap value object) (s : storages) :
  c <> c' -> storage c' (set_storage c m s) = storage c' s.
Proof. by destruct c, c'. Qed.

Lemma set_storage_same (c : collection) (s : storages) :
  set_storage c (storage c s) s = s.
Proof. by destruct c, s. Qed.

Lemma remove_absent (m : gmap value object) (k : value) :
  get m k = None -> remove m k = (m, None).
Proof. unfold get, remove. intros H. by rewrite H, delete_id. Qed.

Lemma elem_of_values (m : gmap value object) (k : value) (entity : object) :
  m !! k = Some entity -> entity ∈ values m.
Proof.
  intros H. unfold values. apply list_elem_of_fmap.
  exists (k, entity). split; [reflexivity|]. by apply elem_of_map_to_list.
Qed.

(** ** Requests on an id the collection does not hold *)

(** C1 as stated does not hold.  In revision 3 a [PUT /doctors/:id] whose
    body fails validation is answered 400 before the id is looked up, and in
    revision 1 a [DELETE /appointments/:id] of an id that is not stored is
    answered 400: in both cases the id is absent and the status is not
    404. *)
Lemma C1_absent_id_answered_400 :
  get (storage Doctors no_storages) (Str "1b9d6bcd") = None /\
  (exists r, Rev3.handle env1 no_storages (PUT Doctors "1b9d6bcd" (BodyObj []))
             = Some (no_storages, r) /\ status r = 400 /\ status r <> 404) /\
  get (storage Appointments no_storages) (Str "1b9d6bcd") = None /\
  (exists r, Rev1.handle env1 no_storages (DELETE Appointments "1b9d6bcd")
             = Some (no_storages, r) /\ status r = 400 /\ status r <> 404).
Proof.
  split; [reflexivity|]. split.
  - eexists. split; [reflexivity|]. split; [reflexivity|discriminate].
  - split; [reflexivity|].
    eexists. split; [reflexivity|]. split; [reflexivity|discriminate].
Qed.

(** C1, amended.  Let [id] be absent from collection [c].  In revision 3,
    [GET /:id] and [DELETE /:id] (where the collection has the route), and
    [PUT /:id] with a body that passes validation, are answered with status
    404 and the message "<Entity> with id = <id> not found", and the maps
    stay as they are; a [PUT] whose body fails validation is answered 400,
    maps unchanged.  In revision 1, [GET /appointments/:id] is answered 404,
    [PUT] and [DELETE] are answered 400, each with a not-found text and the
    maps unchanged. *)
Theorem C1_absent_id (e : env) (s : storages) (c : collection) (id : string) :
  get (storage c s) (Str id) = None ->
  (status (Rev3.not_found c id) = 404 /\
   sent (Rev3.not_found c id) =
     Json (Obj [("status", Num 404);
                ("message", Str (Rev3.singular c +:+ " with id = " +:+ id +:+ " not found"))])) /\
  (c <> PatientRecords -> c <> Medications ->
   Rev3.handle e s (GET_id c id) = Some (s, Rev3.not_found c id)) /\
  (c <> Medications ->
   Rev3.handle e s (DELETE c id) = Some (s, Rev3.not_found c id)) /\
  (c <> Medications -> forall body, Rev3.invalid c body = false ->
   Rev3.handle e s (PUT c id body) = Some (s, Rev3.not_found c id)) /\
  (c <> Medications -> forall body, Rev3.invalid c body = true ->
   Rev3.handle e s (PUT c id body)
   = Some (s, json 400 (Obj [("error", Str (Rev3.invalid_input true c))]))) /\
  (c = Appointments ->
   Rev1.handle e s (GET_id c id)
   = Some (s, send 404 ("the appointment with id=" +:+ id +:+ " not found")) /\
   (forall body,
      Rev1.handle e s (PUT c id body)
      = Some (s, send 400 ("couldn't update an appointment with id=" +:+ id
                           +:+ ". appointment not found"))) /\
   Rev1.handle e s (DELETE c id)
   = Some (s, send 400 ("couldn't delete an appointment with id=" +:+ id
                        +:+ ". appointment not found"))).
Proof.
  intros Habsent.
  assert (Hdel : Rev3.delete c s id = (s, Rev3.not_found c id)).
  { unfold Rev3.delete. rewrite (remove_absent _ _ Habsent).
    by rewrite set_storage_same. }
  assert (Hput : forall body, Rev3.invalid c body = false ->
                              Rev3.put c e s id body = (s, Rev3.not_found c id)).
  { intros body Hv. unfold Rev3.put. by rewrite Hv, Habsent. }
  assert (Hbad : forall body, Rev3.invalid c body = true ->
                              Rev3.put c e s id body
                              = (s, json 400 (Obj [("error", Str (Rev3.invalid_input true c))]))).
  { intros body Hv. unfold Rev3.put. by rewrite Hv. }
  split; [by split|]. split; [|split; [|split; [|split]]].
  - intros H1 H2. destruct c; try done; simpl; unfold Rev3.get_id; by rewrite Habsent.
  - intros H1. destruct c; try done; simpl; by rewrite Hdel.
  - intros H1 body Hv. destruct c; try done; simpl; by rewrite Hput.
  - intros H1 body Hv. destruct c; try done; simpl; by rewrite Hbad.
  - intros ->. simpl in Habsent. simpl. split; [|split].
    + unfold Rev1.get_appointment. by rewrite Habsent.
    + intros body. unfold Rev1.put_appointment. by rewrite Habsent.
    + unfold Rev1.delete_appointment. rewrite (remove_absent _ _ Habsent).
      by destruct s.
Qed.

Lemma C1_absent_id_witness :
  Rev3.handle env1 no_storages (DELETE Doctors "1b9d6bcd")
  = Some (no_storages, Rev3.not_found Doctors "1b9d6bcd").
Proof.
  destruct (C1_absent_id env1 no_storages Doctors "1b9d6bcd") as (_ & _ & H & _).
  - reflexivity.
  - apply H. discriminate.
Defined.

(** ** The filter routes *)

(** What a scan-and-filter returns: the stored entities whose [key] field
    is the string [id]. *)
Lemma elem_of_related (key id : string) (m : gmap value object) (x : object) :
  x ∈ related key id m <-> (exists k, m !! k = Some x) /\ prop x key = Str id.
Proof.
  unfold related. rewrite list_elem_of_In, filter_In, <- list_elem_of_In.
  unfold values. rewrite list_elem_of_fmap. split.
  - intros [([k y] & -> & Hk) Hp]. split.
    + exists k. by apply elem_of_map_to_list.
    + simpl in *. unfold strict_eq_str in Hp.
      destruct (prop y key); try discriminate. by apply String.eqb_eq in Hp as ->.
  - intros [[k Hk] Hp]. split.
    + exists (k, x). split; [reflexivity|]. by apply elem_of_map_to_list.
    + rewrite Hp. apply String.eqb_refl.
Qed.

(** Revisions 1 and 2 answer the three filter routes with that list. *)
Lemma filter_routes_scan (shape : opt_shape) (e : env) (s : storages) (id : string) :
  let scanned c key := Some (s, json 200 (objects (related key id (storage c s)))) in
  Rev1.handle e s (GET_by_patient PatientRecords id) = scanned PatientRecords "patientId" /\
  Rev1.handle e s (GET_by_doctor PatientRecords id) = scanned PatientRecords "doctorId" /\
  Rev1.handle e s (GET_by_patient Medications id) = scanned Medications "patientId" /\
  Rev2.handle shape e s (GET_by_patient PatientRecords id) = scanned PatientRecords "patientId" /\
  Rev2.handle shape e s (GET_by_doctor PatientRecords id) = scanned PatientRecords "doctorId" /\
  Rev2.handle shape e s (GET_by_patient Medications id) = scanned Medications "patientId".
Proof. repeat split. Qed.

(** C2, a defect of revision 3.  The map holds one patient record, of
    patient "p1" and doctor "d1", under its own id.  A scan for the records
    of patient "p1" finds it, and so does revision 1; revision 3 calls
    [get] with the path id as key, answers 404 for "p1" and "d1", and
    answers the record for the record's own id. *)
Theorem C2_rev3_looks_up_path_id :
  let stored := Rev3.construct PatientRecords env1 record_body in
  storage PatientRecords one_record = {[ Str "1b9d6bcd" := stored ]} /\
  related "patientId" "p1" (storage PatientRecords one_record) = [stored] /\
  related "doctorId" "d1" (storage PatientRecords one_record) = [stored] /\
  Rev1.handle env2 one_record (GET_by_patient PatientRecords "p1")
  = Some (one_record, json 200 (objects [stored])) /\
  Rev3.handle env2 one_record (GET_by_patient PatientRecords "p1")
  = Some (one_record,
          json 404 (Obj [("status", Num 404);
                         ("message", Str "Patient records for patient with id = p1 not found")])) /\
  Rev3.handle env2 one_record (GET_by_doctor PatientRecords "d1")
  = Some (one_record,
          json 404 (Obj [("status", Num 404);
                         ("message", Str "Patient records for doctor with id = d1 not found")])) /\
  Rev3.handle env2 one_record (GET_by_patient PatientRecords "1b9d6bcd")
  = Some (one_record,
          json 200 (Obj [("status", Num 200);
                         ("message", Str "Patient records retrieved successfully");
                         ("patientRecords", Obj stored)])).
Proof. repeat split; vm_compute; reflexivity. Qed.

(** ** The id of a created entity *)

(** Where the entity comes from a class constructor (revision 2, and the
    doctors of revision 3), its id is the generated one, whatever the body
    holds. *)
Lemma constructed_id_is_uuid (c : collection) (e : env) (body : reqbody) :
  prop (Rev2.construct c e body) "id" = Str (uuidv4 e) /\
  prop (Rev3.construct Doctors e body) "id" = Str (uuidv4 e).
Proof. split; [by destruct c|reflexivity]. Qed.

(** Where the body is spread over the literal (revision 1, and the other
    four collections of revision 3), an [id] or [createdAt] of the body
    replaces the generated one; without them the generated ones stay. *)
Lemma spread_id (e : env) (body : reqbody) (k : string) :
  let literal := [("id", Str (uuidv4 e)); ("createdAt", getCurrentDate e)] in
  prop (spread literal (own_props body)) k =
  match lookup_member k (own_props body) with
  | Some v => v
  | None => prop literal k
  end.
Proof.
  simpl. unfold prop at 1. rewrite lookup_spread.
  by destruct (lookup_member k (own_props body)).
Qed.

(** C3, a defect of the creates that spread the body.  [POST /patients] of
    revision 3 with a valid body that also carries [id] and [createdAt]:
    the entity is stored under the id of the body, with the [createdAt] of
    the body, and nothing is stored under the generated id. *)
Theorem C3_body_id_replaces_uuid :
  let body :=
    with_member (with_member patient_body "id" (Str "chosen")) "createdAt" (Str "1999") in
  let entity :=
    [("id", Str "chosen"); ("createdAt", Str "1999"); ("name", Str "Ann");
     ("age", Num 30); ("gender", Str "F")] in
  Rev3.invalid Patients body = false /\
  Rev3.handle env1 no_storages (POST Patients body)
  = Some (set_storage Patients {[ Str "chosen" := entity ]} no_storages,
          json 201 (Obj [("status", Num 201);
                         ("message", Str "Patient created successfully");
                         ("patient", Obj entity)])) /\
  ({[ Str "chosen" := entity ]} : gmap value object) !! Str (uuidv4 env1) = None /\
  Rev1.handle env1 no_storages (POST Patients body)
  = Some (set_storage Patients {[ Str "chosen" := entity ]} no_storages,
          json 200 (Obj entity)).
Proof. repeat split; vm_compute; reflexivity. Qed.

(** ** Validation *)

Lemma bad_string_ill_typed (b : reqbody) (k : string) :
  has_type (body_prop b k) TString = false -> Rev3.bad_string b k = true.
Proof.
  unfold Rev3.bad_string.
  destruct (body_prop b k); intros H; try discriminate H;
    apply orb_true_iff; first [by right | by left].
Qed.

Lemma bad_number_ill_typed (b : reqbody) (k : string) :
  has_type (body_prop b k) TNumber = false -> Rev3.bad_number b k = true.
Proof.
  unfold Rev3.bad_number.
  destruct (body_prop b k); intros H; try discriminate H;
    apply orb_true_iff; first [by right | by left].
Qed.

Lemma bad_array_ill_typed (b : reqbody) (k : string) :
  has_type (body_prop b k) TArray = false -> Rev3.bad_array b k = true.
Proof.
  unfold Rev3.bad_array.
  destruct (body_prop b k); intros H; try discriminate H;
    apply orb_true_iff; first [by right | by left].
Qed.

(** A body that misses a required field, or has it with the wrong type,
    fails the validation of revision 3. *)
Lemma ill_typed_invalid (c : collection) (body : reqbody) :
  ill_typed c body -> Rev3.invalid c body = true.
Proof.
  intros (k & t & Hin & Ht). unfold Rev3.invalid.
  destruct c; simpl in Hin;
    repeat (apply elem_of_cons in Hin as [Hin|Hin]; [injection Hin as -> ->|]);
    try (by apply elem_of_nil in Hin);
    first [ rewrite (bad_string_ill_typed _ _ Ht)
          | rewrite (bad_number_ill_typed _ _ Ht)
          | rewrite (bad_array_ill_typed _ _ Ht) ];
    by rewrite ?orb_true_r.
Qed.

(** C4 as stated does not hold: revision 1 does not validate.  The empty
    body has no [name], yet [POST /doctors] answers 200 and stores an
    entity. *)
Lemma C4_rev1_stores_empty_body :
  ill_typed Doctors (BodyObj []) /\
  exists s r,
    Rev1.handle env1 no_storages (POST Doctors (BodyObj [])) = Some (s, r) /\
    status r = 200 /\ status r <> 400 /\
    storage Doctors s !! Str "1b9d6bcd"
    = Some [("id", Str "1b9d6bcd"); ("createdAt", Date (Num 1700000000000))] /\
    s <> no_storages.
Proof.
  split.
  - exists "name", TString. split; [apply list_elem_of_here|reflexivity].
  - eexists _, _. split; [reflexivity|].
    split; [reflexivity|]. split; [discriminate|]. split; [reflexivity|].
    intros H. apply (f_equal (fun s => storage Doctors s !! Str "1b9d6bcd")) in H.
    vm_compute in H. discriminate.
Qed.

(** C4, amended to revision 3.  A create or update whose body misses a
    required field or carries it with the wrong type is answered with
    status 400 and leaves the five maps as they are. *)
Theorem C4_rev3_rejects_ill_typed (e : env) (s : storages) (c : collection)
    (body : reqbody) :
  ill_typed c body ->
  Rev3.handle e s (POST c body)
  = Some (s, json 400 (Obj [("status", Num 400);
                            ("error", Str (Rev3.invalid_input false c))])) /\
  (c <> Medications -> forall id,
     Rev3.handle e s (PUT c id body)
     = Some (s, json 400 (Obj [("error", Str (Rev3.invalid_input true c))]))).
Proof.
  intros Hbad%ill_typed_invalid. split.
  - simpl. unfold Rev3.post. by rewrite Hbad.
  - intros Hc id. destruct c; try done; simpl; unfold Rev3.put; by rewrite Hbad.
Qed.

Lemma C4_rev3_rejects_ill_typed_witness :
  Rev3.handle env1 one_doctor (POST Patients (BodyObj [("name", Str "Ann"); ("age", Str "30")]))
  = Some (one_doctor,
          json 400 (Obj [("status", Num 400);
                         ("error", Str (Rev3.invalid_input false Patients))])).
Proof.
  apply (C4_rev3_rejects_ill_typed env1 one_doctor Patients).
  exists "age", TNumber. split; [|reflexivity].
  apply list_elem_of_further, list_elem_of_here.
Defined.

(** ** Pagination *)

(** Between two indices that are not negative, [slice] is the run of
    elements from the first (inclusive) to the second (exclusive). *)
Lemma slice_window {A : Type} (l : list A) (a b : Z) :
  0 <= a -> a <= b ->
  slice l a b = take (Z.to_nat (b - a)) (drop (Z.to_nat a) l).
Proof.
  intros Ha Hab. unfold slice.
  destruct (Z.ltb_spec a 0) as [?|_]; [lia|].
  destruct (Z.ltb_spec b 0) as [?|_]; [lia|].
  destruct (Z.le_gt_cases a (Z.of_nat (length l))) as [Hal|Hal].
  - rewrite (Z.min_l a) by lia.
    destruct (Z.le_gt_cases b (Z.of_nat (length l))) as [Hbl|Hbl].
    + by rewrite (Z.min_l b) by lia.
    + rewrite (Z.min_r b) by lia.
      rewrite !take_ge; [reflexivity| |]; rewrite length_drop; lia.
  - rewrite (Z.min_r a), (Z.min_r b) by lia.
    rewrite Z.sub_diag. simpl. rewrite take_0.
    rewrite (drop_ge l (Z.to_nat a)) by lia. by rewrite take_nil.
Qed.

(** [parseInt] reads no number from the empty text, nor from a text that
    starts with a character other than white space, a sign or a digit. *)
Lemma parseInt_not_a_number (a : Ascii.ascii) (rest : string) :
  parseInt (Some "") = None /\
  (may_start_number a = false -> parseInt (Some (String a rest)) = None).
Proof.
  split; [reflexivity|]. intros H.
  destruct a as [[] [] [] [] [] [] [] []]; try discriminate H; clear H;
    destruct rest as [|b [|c rest]]; reflexivity.
Qed.

Lemma or_default_nonzero (n d : Z) : n <> 0 -> or_default (Some n) d = n.
Proof. intros Hn. unfold or_default. by destruct (Z.eqb_spec n 0). Qed.




(** C10.  Every paginate request is answered with status 200 and the
    slice of the list of the collection that the page and the limit in
    force select.  A [page] that is absent, or from which [parseInt] reads
    no number (as from every text that is not numeric), or reads zero, acts
    as page 1: the answer starts at the head of the list.  Such a [limit]
    acts as limit 10: the answer is the run of ten elements of the page.
    With both replaced the answer is the first ten elements. *)
Theorem C10_paginate_defaults (e : env) (s : storages) (c : collection)
    (qpage qlimit : option string) :
  (exists results,
     Rev3.handle e s (GET_pages c qpage qlimit) = Some (s, json 200 (objects results)) /\
     results = slice (values (storage c s))
                 ((or_default (parseInt qpage) 1 - 1) * or_default (parseInt qlimit) 10)
                 (or_default (parseInt qpage) 1 * or_default (parseInt qlimit) 10)) /\
  (parseInt None = None /\
   forall a rest, may_start_number a = false -> parseInt (Some (String a rest)) = None) /\
  (parseInt qpage = None \/ parseInt qpage = Some 0 ->
   or_default (parseInt qpage) 1 = 1 /\
   Rev3.handle e s (GET_pages c qpage qlimit)
   = Rev3.handle e s (GET_pages c (Some "1") qlimit) /\
   forall l, parseInt qlimit = Some l -> 0 < l ->
     Rev3.handle e s (GET_pages c qpage qlimit)
     = Some (s, json 200 (objects (take (Z.to_nat l) (values (storage c s)))))) /\
  (parseInt qlimit = None \/ parseInt qlimit = Some 0 ->
   or_default (parseInt qlimit) 10 = 10 /\
   Rev3.handle e s (GET_pages c qpage qlimit)
   = Rev3.handle e s (GET_pages c qpage (Some "10")) /\
   forall p, parseInt qpage = Some p -> 0 < p ->
     Rev3.handle e s (GET_pages c qpage qlimit)
     = Some (s, json 200 (objects (take 10 (drop (Z.to_nat ((p - 1) * 10))
                                              (values (storage c s))))))) /\
  (parseInt qpage = None \/ parseInt qpage = Some 0 ->
   parseInt qlimit = None \/ parseInt qlimit = Some 0 ->
   Rev3.handle e s (GET_pages c qpage qlimit)
   = Some (s, json 200 (objects (take 10 (values (storage c s)))))).
Proof.
  assert (Hpage : parseInt qpage = None \/ parseInt qpage = Some 0 ->
                  or_default (parseInt qpage) 1 = 1)
    by (by intros [-> | ->]).
  assert (Hlimit : parseInt qlimit = None \/ parseInt qlimit = Some 0 ->
                   or_default (parseInt qlimit) 10 = 10)
    by (by intros [-> | ->]).
  split; [by eexists|]. split.
  { split; [reflexivity|]. intros a rest. apply parseInt_not_a_number. }
  split; [|split].
  - intros H. specialize (Hpage H). split; [exact Hpage|]. split.
    + simpl. unfold Rev3.paginate. by rewrite Hpage.
    + intros l Hl Hl0. simpl. unfold Rev3.paginate.
      rewrite Hpage, Hl, or_default_nonzero by lia.
      rewrite slice_window by lia.
      replace (1 * l - (1 - 1) * l) with l by lia.
      by replace ((1 - 1) * l) with 0 by lia.
  - intros H. specialize (Hlimit H). split; [exact Hlimit|]. split.
    + simpl. unfold Rev3.paginate. by rewrite Hlimit.
    + intros p Hp Hp0. simpl. unfold Rev3.paginate.
      rewrite Hlimit, Hp, or_default_nonzero by lia.
      rewrite slice_window by lia.
      by replace (p * 10 - (p - 1) * 10) with 10 by lia.
  - intros H1 H2. simpl. unfold Rev3.paginate.
    rewrite (Hpage H1), (Hlimit H2). by rewrite slice_window by lia.
Qed.

Lemma C10_paginate_defaults_witness :
  Rev3.handle env2 one_doctor (GET_pages Doctors (Some "first") (Some "0"))
  = Some (one_doctor, json 200 (objects (take 10 (values (storage Doctors one_doctor))))).
Proof.
  destruct (C10_paginate_defaults env2 one_doctor Doctors (Some "first") (Some "0"))
    as (_ & _ & _ & _ & Hboth).
  apply Hboth; [left|right]; reflexivity.
Defined.

(** ** What a request reads and writes *)

Ltac unfold_handlers :=
  unfold handle, Rev1.handle, Rev2.handle, Rev3.handle,
    Rev1.post, Rev1.get_all, Rev1.get_appointment, Rev1.put_appointment,
    Rev1.delete_appointment, Rev1.get_by,
    Rev2.post, Rev2.get_all, Rev2.get_appointment, Rev2.put_appointment,
    Rev2.delete_appointment, Rev2.get_by,
    Rev3.post, Rev3.get_all, Rev3.get_id, Rev3.paginate, Rev3.put, Rev3.delete,
    Rev3.get_for, get, insert, remove in *.



(** A request leaves the other four collections alone and changes at most
    one key of the collection it addresses. *)
Lemma writes_at_most_one_key (rev : revision) (e : env) (s s' : storages)
    (r : request) (resp : response) :
  handle rev e s r = Some (s', resp) ->
  (forall c, c <> target r -> storage c s' = storage c s) /\
  exists k, forall k', k' <> k -> storage (target r) s' !! k' = storage (target r) s !! k'.
Proof.
  intros H.
  assert (Hshape : s' = s \/ exists k m,
             s' = set_storage (target r) m s /\
             forall k', k' <> k -> m !! k' = storage (target r) s !! k').
  { destruct rev as [|shape|], r as [c body|c|c id|c qp ql|c id body|c id|c id|c id];
      destruct c; unfold_handlers; simpl in H;
      repeat case_match; simplify_eq/=;
      first [ by left
            | right; eexists _, _; split; [reflexivity|];
              intros k' Hk'; simpl;
              first [ by rewrite lookup_insert_ne | by rewrite lookup_delete_ne ] ]. }
  destruct Hshape as [-> | (k & m & -> & Hm)].
  - split; [done|]. by exists Null.
  - split.
    + intros c Hc. by rewrite storage_set_storage_ne.
    + exists k. intros k' Hk'. rewrite storage_set_storage. by apply Hm.
Qed.

(** A delete changes no key but the path id; so does an update, provided
    the entity stored under the path id has that id. *)
Lemma delete_writes_path_id (rev : revision) (e : env) (s s' : storages)
    (c : collection) (id : string) (resp : response) (k : value) :
  handle rev e s (DELETE c id) = Some (s', resp) ->
  k <> Str id -> storage c s' !! k = storage c s !! k.
Proof.
  intros H Hk.
  destruct rev as [|shape|]; destruct c; unfold_handlers; simpl in H;
    repeat case_match; simplify_eq/=; by rewrite lookup_delete_ne.
Qed.

(** An update changes no key but the path id, provided every entity of the
    collection is stored under its own id. *)
Lemma put_writes_path_id (rev : revision) (e : env) (s s' : storages)
    (c : collection) (id : string) (body : reqbody) (resp : response) (k : value) :
  id_is_key (storage c s) ->
  handle rev e s (PUT c id body) = Some (s', resp) ->
  k <> Str id -> storage c s' !! k = storage c s !! k.
Proof.
  intros Hinv H Hk. unfold id_is_key in Hinv.
  destruct rev as [|shape|]; destruct c; unfold_handlers; simpl in *;
    repeat case_match; simplify_eq/=; try done;
    try (by rewrite lookup_insert_ne);
    match goal with
    | Hget : _ !! Str id = Some ?o |- _ =>
        rewrite (Hinv _ _ Hget); by rewrite lookup_insert_ne
    end.
Qed.

(** C7, a defect of the updates of revisions 1 and 3.  The update writes
    under the [id] field of the stored entity, and an earlier update may
    have set that field from its body.  In [two_doctors] the entity under
    "1b9d6bcd" carries the id "6ec0bd7f" of the second doctor:
    [PUT /doctors/1b9d6bcd] then leaves key "1b9d6bcd" as it is and
    replaces the second doctor. *)
Theorem C7_put_writes_another_key :
  let before := storage Doctors two_doctors in
  before !! Str "6ec0bd7f"
  = Some [("id", Str "6ec0bd7f"); ("name", Str "Strange"); ("speciality", Str "cardiology");
          ("createdAt", Date (Num 1700000001000))] /\
  exists s' r,
    Rev3.handle env4 two_doctors (PUT Doctors "1b9d6bcd" (doctor_body "X")) = Some (s', r) /\
    status r = 200 /\
    storage Doctors s' !! Str "1b9d6bcd" = before !! Str "1b9d6bcd" /\
    storage Doctors s' !! Str "6ec0bd7f"
    = Some [("id", Str "6ec0bd7f"); ("name", Str "X"); ("speciality", Str "cardiology");
            ("createdAt", Date (Num 1700000000000));
            ("updatedAt", Date (Num 1700000003000))] /\
    storage Doctors s' !! Str "6ec0bd7f" <> before !! Str "6ec0bd7f".
Proof.
  split; [by vm_compute|].
  eexists _, _. split; [reflexivity|].
  split; [reflexivity|]. split; [by vm_compute|]. split; [by vm_compute|].
  by vm_compute.
Qed.

(** ** Create, then read *)

(** After a create of revision 3 was answered 201 with entity [e], and as
    long as the requests served since have left the entry under the id of
    [e] as the create wrote it, [GET /:id] with that id is answered 200
    with [e], and [e] is in the list that [GET] on the collection
    answers. *)
Theorem rev3_create_then_get (e : env) (s s1 : storages) (c : collection)
    (body : reqbody) (r1 : response) :
  c = Doctors \/ c = Patients \/ c = Appointments ->
  Rev3.handle e s (POST c body) = Some (s1, r1) ->
  status r1 = 201 ->
  exists entity,
    sent r1 = Json (Obj [("status", Num 201);
                         ("message", Str (Rev3.singular c +:+ " created successfully"));
                         (Rev3.key_one c, Obj entity)]) /\
    forall (id : string) (reqs : list (env * request)) (e' : env),
      prop entity "id" = Str id ->
      storage c (run R3 s1 reqs) !! Str id = storage c s1 !! Str id ->
      let s2 := run R3 s1 reqs in
      Rev3.handle e' s2 (GET_id c id)
      = Some (s2, json 200 (Obj [("status", Num 200);
                                 ("message", Str (Rev3.singular c +:+ " retrieved successfully"));
                                 (Rev3.key_one c, Obj entity)])) /\
      Rev3.handle e' s2 (GET_all c)
      = Some (s2, json 200 (Obj [("status", Num 200);
                                 ("message", Str (Rev3.plural c +:+ " retrieved successfully"));
                                 (Rev3.key_many c, objects (values (storage c s2)))])) /\
      entity ∈ values (storage c s2).
Proof.
  intros Hc Hpost Hstatus. simpl in Hpost. unfold Rev3.post in Hpost.
  destruct (Rev3.invalid c body); simplify_eq/=.
  set (entity := Rev3.construct c e body).
  set (s1 := set_storage c (insert (storage c s) (prop entity "id") entity) s).
  exists entity. split; [reflexivity|].
  intros id reqs e' Hid Hkept.
  assert (Hs1 : storage c s1 !! Str id = Some entity).
  { unfold s1. rewrite storage_set_storage, Hid. apply lookup_insert_eq. }
  rewrite Hs1 in Hkept. clearbody s1.
  assert (Hget : Rev3.get_id c (run R3 s1 reqs) id
                 = (run R3 s1 reqs,
                    json 200 (Obj [("status", Num 200);
                                   ("message", Str (Rev3.singular c +:+ " retrieved successfully"));
                                   (Rev3.key_one c, Obj entity)]))).
  { unfold Rev3.get_id, get. by rewrite Hkept. }
  split; [|split].
  - destruct Hc as [->|[->| ->]]; simpl; by rewrite Hget.
  - reflexivity.
  - by apply (elem_of_values _ (Str id)).
Qed.

Lemma rev3_create_then_get_witness :
  Rev3.handle env4 (run R3 patient_created later_requests) (GET_id Patients "6ec0bd7f")
  = Some (run R3 patient_created later_requests,
          json 200 (Obj [("status", Num 200);
                         ("message", Str "Patient retrieved successfully");
                         ("patient", Obj (Rev3.construct Patients env2 patient_body))])) /\
  Rev3.construct Patients env2 patient_body
  ∈ values (storage Patients (run R3 patient_created later_requests)).
Proof.
  destruct (rev3_create_then_get env2 one_doctor patient_created Patients patient_body
              (json 201 (Obj [("status", Num 201);
                              ("message", Str "Patient created successfully");
                              ("patient", Obj (Rev3.construct Patients env2 patient_body))])))
    as (entity & Hsent & Hread).
  - by right; left.
  - reflexivity.
  - reflexivity.
  - simpl in Hsent. injection Hsent as <-.
    destruct (Hread "6ec0bd7f" later_requests env4) as (Hget & _ & Hin).
    + reflexivity.
    + reflexivity.
    + split; [exact Hget | exact Hin].
Defined.

(** C8, a defect of the creates that spread the body.  In revision 3 a
    patient is created and answered with entity [e], whose id is
    "6ec0bd7f".  A second create follows, no update and no delete, whose
    body carries that id: it is stored under the same key.  [GET /:id]
    with the id of [e] then answers the second patient, and [e] is no
    longer in the list of the collection. *)
Theorem C8_create_with_same_id_replaces :
  let e := Rev3.construct Patients env2 patient_body in
  let second :=
    Rev3.construct Patients env3 (with_member other_patient_body "id" (Str "6ec0bd7f")) in
  let created :=
    fun (who : object) =>
      json 201 (Obj [("status", Num 201); ("message", Str "Patient created successfully");
                     ("patient", Obj who)]) in
  Rev3.handle env2 one_doctor (POST Patients patient_body)
  = Some (patient_created, created e) /\
  prop e "id" = Str "6ec0bd7f" /\
  Rev3.handle env3 patient_created
    (POST Patients (with_member other_patient_body "id" (Str "6ec0bd7f")))
  = Some (patient_replaced, created second) /\
  Rev3.handle env4 patient_replaced (GET_id Patients "6ec0bd7f")
  = Some (patient_replaced,
          json 200 (Obj [("status", Num 200);
                         ("message", Str "Patient retrieved successfully");
                         ("patient", Obj second)])) /\
  prop second "name" = Str "Bob" /\ second <> e /\
  values (storage Patients patient_replaced) = [second] /\
  e ∉ values (storage Patients patient_replaced).
Proof.
  intros e second created.
  assert (Hne : second <> e) by discriminate.
  assert (Hvalues : values (storage Patients patient_replaced) = [second])
    by (vm_compute; reflexivity).
  split; [vm_compute; reflexivity|]. split; [reflexivity|].
  split; [vm_compute; reflexivity|]. split; [vm_compute; reflexivity|].
  split; [reflexivity|]. split; [exact Hne|]. split; [exact Hvalues|].
  rewrite Hvalues. intros Hin. apply list_elem_of_singleton in Hin.
  apply Hne. symmetry. exact Hin.
Qed.

(** The same round trip on the appointments of revisions 1 and 2, the only
    collection they can read by id; revision 2 answers with whatever shape
    the library's [get] has. *)
Lemma rev1_create_then_get (e e' : env) (s : storages) (body : reqbody) (id : string) :
  let entity :=
    spread [("id", Str (uuidv4 e)); ("createdAt", getCurrentDate e)] (own_props body) in
  let s1 := set_storage Appointments (insert (appointmentsStorage s) (Str id) entity) s in
  prop entity "id" = Str id ->
  Rev1.handle e s (POST Appointments body) = Some (s1, json 200 (Obj entity)) /\
  Rev1.handle e' s1 (GET_id Appointments id) = Some (s1, json 200 (Obj entity)).
Proof.
  intros entity s1 Hid. split.
  - simpl. unfold Rev1.post. fold entity. by rewrite Hid.
  - unfold s1. simpl. unfold Rev1.get_appointment, get, insert. simpl.
    by rewrite lookup_insert_eq.
Qed.

(** In revision 2 a created appointment is stored under the generated id,
    whatever the body holds, and a [GET /appointments/:id] with that id
    answers 200 with it, in the shape [get] hands it back. *)
Lemma rev2_create_then_get (shape : opt_shape) (e e' : env) (s : storages)
    (body : reqbody) :
  let entity := Rev2.construct Appointments e body in
  let s1 :=
    set_storage Appointments (insert (appointmentsStorage s) (Str (uuidv4 e)) entity) s in
  Rev2.handle shape e s (POST Appointments body) = Some (s1, json 200 (Obj entity)) /\
  Rev2.handle shape e' s1 (GET_id Appointments (uuidv4 e))
  = Some (s1, json 200 (opt_value shape (Some entity))).
Proof.
  intros entity s1. split; [reflexivity|].
  unfold s1. simpl. unfold Rev2.get_appointment, get, insert. simpl.
  rewrite lookup_insert_eq. by destruct shape.
Qed.

(** ** Ids and keys *)

Lemma id_is_key_insert (m : gmap value object) (k : value) (entity : object) :
  id_is_key m -> prop entity "id" = k -> id_is_key (<[k := entity]> m).
Proof.
  intros Hm Hk k' x. rewrite lookup_insert. case_decide; [|by apply Hm].
  intros [= <-]. by subst.
Qed.

Lemma id_is_key_delete (m : gmap value object) (k : value) :
  id_is_key m -> id_is_key (delete k m).
Proof.
  intros Hm k' x. rewrite lookup_delete. case_decide; [done|by apply Hm].
Qed.

Lemma not_id_is_key (m : gmap value object) (k : value) (entity : object) :
  m !! k = Some entity -> prop entity "id" <> k -> ~ id_is_key m.
Proof. intros Hk Hid Hm. by apply Hid, Hm. Qed.

(** Creates and deletes keep every stored entity under its own id, in all
    three revisions. *)
Lemma post_delete_keep_id_is_key (rev : revision) (e : env) (s s' : storages)
    (r : request) (resp : response) :
  (forall c, id_is_key (storage c s)) ->
  (exists c body, r = POST c body) \/ (exists c id, r = DELETE c id) ->
  handle rev e s r = Some (s', resp) ->
  forall c, id_is_key (storage c s').
Proof.
  intros Hs Hr H c'.
  assert (Hshape : s' = s \/ exists k m,
             s' = set_storage (target r) m s /\
             (m = delete k (storage (target r) s) \/
              exists entity,
                prop entity "id" = k /\ m = <[k := entity]> (storage (target r) s))).
  { destruct Hr as [(c & body & ->)|(c & id & ->)];
      destruct rev as [|shape|]; destruct c; unfold_handlers; simpl in H;
      repeat case_match; simplify_eq/=;
      first [ by left
            | right; eexists _, _; split; [reflexivity|]; by left
            | right; eexists _, _; split; [reflexivity|]; right;
              eexists; split; cycle 1; reflexivity ]. }
  destruct Hshape as [-> | (k & m & -> & Hm)]; [done|].
  destruct (decide (target r = c')) as [<-|Hne].
  - rewrite storage_set_storage. destruct Hm as [-> | (entity & Hid & ->)].
    + by apply id_is_key_delete.
    + by apply id_is_key_insert.
  - by rewrite storage_set_storage_ne.
Qed.

(** C9, a defect of the updates.  In revision 3 (and 1) the body of an
    update may carry an [id], which replaces the id of the entity while the
    key stays; in revision 2 an update stores a fresh [Appointment], with a
    fresh id, under the path id.  After one create and one update the map
    holds an entity whose id is not its key. *)
Theorem C9_update_breaks_id_is_key :
  id_is_key (storage Doctors one_doctor) /\
  storage Doctors updated_doctor !! Str "1b9d6bcd"
  = Some [("id", Str "elsewhere"); ("name", Str "Who"); ("speciality", Str "cardiology");
          ("createdAt", Date (Num 1700000000000));
          ("updatedAt", Date (Num 1700000001000))] /\
  ~ id_is_key (storage Doctors updated_doctor) /\
  forall shape,
    (exists entity,
       storage Appointments (updated_appointment shape) !! Str "1b9d6bcd" = Some entity /\
       prop entity "id" = Str "6ec0bd7f") /\
    ~ id_is_key (storage Appointments (updated_appointment shape)).
Proof.
  split; [|split; [|split]].
  - apply (post_delete_keep_id_is_key R3 env1 no_storages one_doctor
             (POST Doctors (doctor_body "Who"))
             (json 201 (Obj [("status", Num 201);
                             ("message", Str "Doctor created successfully");
                             ("doctor", Obj (Rev3.construct Doctors env1 (doctor_body "Who")))]))).
    + intros c k x. by destruct c.
    + left. by eexists _, _.
    + reflexivity.
  - by vm_compute.
  - eapply (not_id_is_key _ (Str "1b9d6bcd")); [by vm_compute|]. discriminate.
  - intros shape. split.
    + destruct shape; (eexists; split; [by vm_compute|reflexivity]).
    + destruct shape;
        (eapply (not_id_is_key _ (Str "1b9d6bcd")); [by vm_compute|]; discriminate).
Qed.

(** * Further properties of the handlers *)

(** ** Reads, and requests on other collections *)

Lemma read_only_keeps_storages (rev : revision) (e : env) (s s' : storages)
    (r : request) (resp : response) :
  read_only r = true -> handle rev e s r = Some (s', resp) -> s' = s.
Proof.
  intros Hr H.
  destruct rev as [|shape|], r as [c body|c|c id|c qp ql|c id body|c id|c id|c id];
    try discriminate Hr; destruct c; unfold_handlers; simpl in H;
    repeat case_match; by simplify_eq/=.
Qed.

(** However many [GET] requests are served, of whatever kind and in whatever
    revision, the five maps stay as they are. *)
Theorem reads_keep_storages (rev : revision) (s : storages) (reqs : list (env * request)) :
  Forall (fun er => read_only (snd er) = true) reqs -> run rev s reqs = s.
Proof.
  induction 1 as [|[e r] reqs Hr _ IH]; simpl; [reflexivity|].
  destruct (handle rev e s r) as [[s' resp]|] eqn:H; [|exact IH].
  by rewrite (read_only_keeps_storages _ _ _ _ _ _ Hr H).
Qed.

Lemma reads_keep_storages_witness :
  run R3 one_doctor
    [(env2, GET_all Doctors); (env3, GET_pages Doctors (Some "1") None);
     (env4, GET_id Doctors "1b9d6bcd"); (env4, GET_by_patient Medications "p1")]
  = one_doctor.
Proof. apply reads_keep_storages. by repeat constructor. Defined.

(** Requests addressed to other collections, however many, leave a
    collection as it is. *)
Theorem other_collections_untouched (rev : revision) (c : collection) (s : storages)
    (reqs : list (env * request)) :
  Forall (fun er => target (snd er) <> c) reqs ->
  storage c (run rev s reqs) = storage c s.
Proof.
  intros H. revert s. induction H as [|[e r] reqs Hr _ IH]; intros s; simpl; [reflexivity|].
  destruct (handle rev e s r) as [[s' resp]|] eqn:Hh; [|apply IH].
  rewrite IH. apply (writes_at_most_one_key _ _ _ _ _ _ Hh). by intros ->.
Qed.

Lemma other_collections_untouched_witness :
  storage Doctors
    (run R3 one_doctor
       [(env2, POST Patients patient_body); (env3, POST Appointments appointment_body);
        (env4, DELETE Patients "6ec0bd7f")])
  = storage Doctors one_doctor.
Proof. apply other_collections_untouched. by repeat constructor. Defined.

(** ** Ids and keys along a sequence of requests *)

(** As long as no update is served, every stored entity stays under its own
    id: creates, deletes and reads keep that, in every revision. *)
Theorem id_is_key_without_put (rev : revision) (s : storages) (reqs : list (env * request)) :
  (forall c, id_is_key (storage c s)) ->
  Forall (fun er => is_put (snd er) = false) reqs ->
  forall c, id_is_key (storage c (run rev s reqs)).
Proof.
  intros Hs H. revert s Hs.
  induction H as [|[e r] reqs Hr _ IH]; intros s Hs; simpl; [exact Hs|].
  destruct (handle rev e s r) as [[s' resp]|] eqn:Hh; [|by apply IH].
  apply IH. destruct (read_only r) eqn:Hread.
  - by rewrite (read_only_keeps_storages _ _ _ _ _ _ Hread Hh).
  - apply (post_delete_keep_id_is_key rev e s s' r resp Hs); [|exact Hh].
    destruct r; try discriminate; [left|right]; by eexists _, _.
Qed.

Lemma id_is_key_without_put_witness :
  id_is_key
    (storage Patients
       (run R1 no_storages
          [(env1, POST Patients (with_member patient_body "id" (Str "chosen")));
           (env2, POST Patients patient_body); (env3, GET_all Patients);
           (env4, DELETE Patients "chosen")])).
Proof.
  apply id_is_key_without_put.
  - intros c k x. by destruct c.
  - by repeat constructor.
Defined.

Lemma put_writes_path_id_witness :
  storage Doctors
    (match handle R3 env2 one_doctor (PUT Doctors "1b9d6bcd" (doctor_body "Watson")) with
     | Some (s', _) => s'
     | None => one_doctor
     end) !! Str "6ec0bd7f"
  = storage Doctors one_doctor !! Str "6ec0bd7f".
Proof.
  eapply (put_writes_path_id R3 env2 one_doctor _ Doctors "1b9d6bcd" (doctor_body "Watson")).
  - apply (post_delete_keep_id_is_key R3 env1 no_storages one_doctor
             (POST Doctors (doctor_body "Who"))
             (json 201 (Obj [("status", Num 201);
                             ("message", Str "Doctor created successfully");
                             ("doctor", Obj (Rev3.construct Doctors env1 (doctor_body "Who")))]))).
    + intros c k x. by destruct c.
    + left. by eexists _, _.
    + reflexivity.
  - reflexivity.
  - discriminate.
Defined.

Lemma delete_writes_path_id_witness :
  storage Doctors
    (match handle R3 env2 one_doctor (DELETE Doctors "1b9d6bcd") with
     | Some (s', _) => s'
     | None => one_doctor
     end) !! Str "6ec0bd7f"
  = storage Doctors one_doctor !! Str "6ec0bd7f".
Proof.
  eapply (delete_writes_path_id R3 env2 one_doctor _ Doctors "1b9d6bcd").
  - reflexivity.
  - discriminate.
Defined.

(** ** The list of a collection under create and delete *)

Lemma values_insert_fresh (m : gmap value object) (k : value) (entity : object) :
  m !! k = None -> values (<[k := entity]> m) ≡ₚ entity :: values m.
Proof. intros H. unfold values. by rewrite (map_to_list_insert m k entity H). Qed.

Lemma values_delete (m : gmap value object) (k : value) (entity : object) :
  m !! k = Some entity -> values m ≡ₚ entity :: values (delete k m).
Proof. intros H. unfold values. by rewrite <- (map_to_list_delete m k entity H). Qed.

(** A create that is not rejected stores its entity under the entity's id.
    When that id is not yet a key, the list of the collection gains exactly
    the new entity; when it is one, the entity stored there is replaced and
    the list keeps its length. *)
Theorem create_extends_list (rev : revision) (e : env) (s s' : storages) (c : collection)
    (body : reqbody) (r : response) :
  handle rev e s (POST c body) = Some (s', r) -> status r <> 400 ->
  exists entity,
    storage c s' !! prop entity "id" = Some entity /\
    (storage c s !! prop entity "id" = None ->
     values (storage c s') ≡ₚ entity :: values (storage c s)) /\
    (forall old, storage c s !! prop entity "id" = Some old ->
       exists rest, values (storage c s) ≡ₚ old :: rest /\
                    values (storage c s') ≡ₚ entity :: rest).
Proof.
  intros H Hstatus.
  assert (Hs' : exists entity,
             s' = set_storage c (<[prop entity "id" := entity]> (storage c s)) s).
  { destruct rev as [|shape|]; simpl in H.
    - eexists. by injection H as <- _.
    - eexists. by injection H as <- _.
    - unfold Rev3.post in H. destruct (Rev3.invalid c body).
      + injection H as _ <-. by destruct Hstatus.
      + eexists. by injection H as <- _. }
  destruct Hs' as [entity ->]. exists entity. rewrite storage_set_storage.
  split; [apply lookup_insert_eq|]. split.
  - apply values_insert_fresh.
  - intros old Hold. exists (values (delete (prop entity "id") (storage c s))). split.
    + by apply values_delete.
    + rewrite <- insert_delete_eq. apply values_insert_fresh, lookup_delete_eq.
Qed.

Lemma create_extends_list_witness :
  exists entity, storage Patients patient_created !! prop entity "id" = Some entity.
Proof.
  destruct (create_extends_list R3 env2 one_doctor patient_created Patients patient_body
              (json 201 (Obj [("status", Num 201);
                              ("message", Str "Patient created successfully");
                              ("patient", Obj (Rev3.construct Patients env2 patient_body))])))
    as (entity & Hstored & _).
  - reflexivity.
  - discriminate.
  - by exists entity.
Defined.

(** In revision 3 the delete of a stored id answers 200 with the entity
    that was stored, takes exactly that entity off the list of the
    collection and leaves every other key alone; afterwards the id is not
    found, by [GET /:id] and by a second [DELETE]. *)
Theorem delete_then_not_found (e e' : env) (s : storages) (c : collection) (id : string)
    (entity : object) :
  c <> Medications ->
  get (storage c s) (Str id) = Some entity ->
  exists s',
    Rev3.handle e s (DELETE c id)
    = Some (s', json 200 (Obj [("status", Num 200);
                               ("message", Str (Rev3.singular c +:+ " deleted successfully"));
                               (Rev3.key_one c, Obj entity)])) /\
    values (storage c s) ≡ₚ entity :: values (storage c s') /\
    (forall k, k <> Str id -> storage c s' !! k = storage c s !! k) /\
    (c <> PatientRecords ->
     Rev3.handle e' s' (GET_id c id) = Some (s', Rev3.not_found c id)) /\
    Rev3.handle e' s' (DELETE c id) = Some (s', Rev3.not_found c id).
Proof.
  intros Hc Hget. unfold get in Hget.
  exists (set_storage c (delete (Str id) (storage c s)) s).
  assert (Hgone : get (storage c (set_storage c (delete (Str id) (storage c s)) s)) (Str id)
                  = None).
  { rewrite storage_set_storage. apply lookup_delete_eq. }
  split; [|split; [|split; [|split]]].
  - assert (Hdel : Rev3.delete c s id
                   = (set_storage c (delete (Str id) (storage c s)) s,
                      json 200 (Obj [("status", Num 200);
                                     ("message", Str (Rev3.singular c +:+ " deleted successfully"));
                                     (Rev3.key_one c, Obj entity)]))).
    { unfold Rev3.delete, remove. by rewrite Hget. }
    destruct c; try done; exact (f_equal Some Hdel).
  - rewrite storage_set_storage. by apply values_delete.
  - intros k Hk. rewrite storage_set_storage. by apply lookup_delete_ne.
  - intros Hc'.
    assert (Hnone : Rev3.get_id c (set_storage c (delete (Str id) (storage c s)) s) id
                    = (set_storage c (delete (Str id) (storage c s)) s, Rev3.not_found c id)).
    { unfold Rev3.get_id. by rewrite Hgone. }
    destruct c; try done; exact (f_equal Some Hnone).
  - assert (Hdel : Rev3.delete c (set_storage c (delete (Str id) (storage c s)) s) id
                   = (set_storage c (delete (Str id) (storage c s)) s, Rev3.not_found c id)).
    { unfold Rev3.delete. rewrite (remove_absent _ _ Hgone).
      by rewrite set_storage_same. }
    destruct c; try done; exact (f_equal Some Hdel).
Qed.

Lemma delete_then_not_found_witness :
  exists s',
    Rev3.handle env2 one_doctor (DELETE Doctors "1b9d6bcd")
    = Some (s', json 200 (Obj [("status", Num 200);
                               ("message", Str "Doctor deleted successfully");
                               ("doctor", Obj (Rev3.construct Doctors env1 (doctor_body "Who")))])) /\
    Rev3.handle env3 s' (GET_id Doctors "1b9d6bcd")
    = Some (s', Rev3.not_found Doctors "1b9d6bcd").
Proof.
  destruct (delete_then_not_found env2 env3 one_doctor Doctors "1b9d6bcd"
              (Rev3.construct Doctors env1 (doctor_body "Who")))
    as (s' & Hdel & _ & _ & Hget & _).
  - discriminate.
  - reflexivity.
  - exists s'. split; [exact Hdel|]. apply Hget. discriminate.
Defined.

(** ** What revision 3 accepts, and what it therefore stores *)

Lemma bad_string_accepted (b : reqbody) (k : string) :
  Rev3.bad_string b k = negb (accepted (body_prop b k) TString).
Proof.
  unfold Rev3.bad_string. destruct (body_prop b k); simpl; rewrite ?orb_true_r, ?orb_false_r;
    reflexivity.
Qed.

Lemma bad_number_accepted (b : reqbody) (k : string) :
  Rev3.bad_number b k = negb (accepted (body_prop b k) TNumber).
Proof.
  unfold Rev3.bad_number. destruct (body_prop b k); simpl; rewrite ?orb_true_r, ?orb_false_r;
    reflexivity.
Qed.

Lemma bad_array_accepted (b : reqbody) (k : string) :
  Rev3.bad_array b k = negb (accepted (body_prop b k) TArray).
Proof.
  unfold Rev3.bad_array. destruct (body_prop b k); simpl; rewrite ?orb_true_r, ?orb_false_r;
    reflexivity.
Qed.

Lemma invalid_false_iff (c : collection) (body : reqbody) :
  Rev3.invalid c body = false <->
  Forall (fun kt => accepted (body_prop body (fst kt)) (snd kt) = true) (required c).
Proof.
  unfold Rev3.invalid.
  destruct c; simpl;
    rewrite ?bad_string_accepted, ?bad_number_accepted, ?bad_array_accepted;
    rewrite ?Forall_cons, Forall_nil, ?orb_false_iff, ?negb_false_iff; simpl; tauto.
Qed.

(** The validation of revision 3 lets a body through exactly when every
    required field is a string that is not empty, a number that is not zero
    or an array, as its type asks; a create is answered 201 for such a
    body, and 400 with the maps unchanged for any other. *)
Theorem rev3_accepts_iff (e : env) (s : storages) (c : collection) (body : reqbody) :
  (Rev3.invalid c body = false <->
   forall k t, (k, t) ∈ required c -> accepted (body_prop body k) t = true) /\
  exists s' r,
    Rev3.handle e s (POST c body) = Some (s', r) /\
    status r = (if Rev3.invalid c body then 400 else 201) /\
    (Rev3.invalid c body = true -> s' = s).
Proof.
  split.
  - rewrite invalid_false_iff, Forall_forall. split.
    + intros H k t Hin. apply (H (k, t) Hin).
    + intros H [k t] Hin. by apply H.
  - simpl. unfold Rev3.post. destruct (Rev3.invalid c body); by eexists _, _.
Qed.

Lemma accepted_truthy (v : value) (t : field_type) :
  accepted v t = true -> truthy v = true.
Proof. by destruct t, v. Qed.

(** A member of the body that is truthy reaches the object the body is
    spread over, also under the [updatedAt] that an update writes last. *)
Lemma spread_carries (target : object) (body : reqbody) (k : string) :
  truthy (body_prop body k) = true ->
  prop (spread target (own_props body)) k = body_prop body k.
Proof.
  unfold body_prop, prop. rewrite lookup_spread.
  by destruct (lookup_member k (own_props body)).
Qed.

Lemma updated_carries (target : object) (body : reqbody) (d : value) (k : string) :
  truthy (body_prop body k) = true -> k <> "updatedAt" ->
  prop (set_member "updatedAt" d (spread target (own_props body))) k = body_prop body k.
Proof.
  intros Ht Hk. rewrite <- (spread_carries target body k Ht).
  unfold prop. rewrite lookup_set_member.
  destruct (String.eqb_spec "updatedAt" k) as [<-|_]; [done|reflexivity].
Qed.

Lemma required_not_updatedAt (c : collection) (k : string) (t : field_type) :
  (k, t) ∈ required c -> k <> "updatedAt".
Proof.
  intros Hin ->. destruct c; simpl in Hin;
    repeat (apply elem_of_cons in Hin as [Hin|Hin]; [discriminate Hin|]);
    by apply elem_of_nil in Hin.
Qed.

Lemma valid_entity (c : collection) (body : reqbody) (entity : object) :
  Rev3.invalid c body = false ->
  (forall k t, (k, t) ∈ required c -> truthy (body_prop body k) = true ->
               prop entity k = body_prop body k) ->
  Rev3.invalid c (BodyObj entity) = false.
Proof.
  rewrite !invalid_false_iff, !Forall_forall. intros Hbody Hcarried [k t] Hin.
  specialize (Hbody _ Hin). simpl in *. unfold body_prop at 1. simpl.
  rewrite (Hcarried k t Hin); [exact Hbody|]. by apply (accepted_truthy _ t).
Qed.

Lemma constructed_valid (c : collection) (e : env) (body : reqbody) :
  Rev3.invalid c body = false -> Rev3.invalid c (BodyObj (Rev3.construct c e body)) = false.
Proof.
  intros Hv. apply (valid_entity c body); [exact Hv|].
  intros k t Hin Ht. destruct c; try (by apply spread_carries).
  simpl in Hin.
  repeat (apply elem_of_cons in Hin as [Hin|Hin]; [injection Hin as -> ->; reflexivity|]).
  by apply elem_of_nil in Hin.
Qed.

Lemma stored_valid_insert (s : storages) (c : collection) (k : value) (entity : object) :
  stored_valid s -> Rev3.invalid c (BodyObj entity) = false ->
  stored_valid (set_storage c (<[k := entity]> (storage c s)) s).
Proof.
  intros Hs He c' k' x. destruct (decide (c = c')) as [<-|Hne].
  - rewrite storage_set_storage, lookup_insert. case_decide; [by intros [= <-]|apply Hs].
  - rewrite storage_set_storage_ne by done. apply Hs.
Qed.

Lemma stored_valid_delete (s : storages) (c : collection) (k : value) :
  stored_valid s -> stored_valid (set_storage c (delete k (storage c s)) s).
Proof.
  intros Hs c' k' x. destruct (decide (c = c')) as [<-|Hne].
  - rewrite storage_set_storage, lookup_delete. case_decide; [done|apply Hs].
  - rewrite storage_set_storage_ne by done. apply Hs.
Qed.

Lemma stored_valid_step (e : env) (s s' : storages) (r : request) (resp : response) :
  stored_valid s -> Rev3.handle e s r = Some (s', resp) -> stored_valid s'.
Proof.
  intros Hs H.
  destruct r as [c body|c|c id|c qp ql|c id body|c id|c id|c id];
    try (apply (read_only_keeps_storages R3) in H; [by subst|reflexivity]).
  - simpl in H. unfold Rev3.post in H.
    destruct (Rev3.invalid c body) eqn:Hv; simplify_eq/=; [done|].
    by apply stored_valid_insert, constructed_valid.
  - assert (Hput : Rev3.put c e s id body = (s', resp)) by (by destruct c; simplify_eq/=).
    unfold Rev3.put in Hput.
    destruct (Rev3.invalid c body) eqn:Hv; simplify_eq/=; [done|].
    destruct (get (storage c s) (Str id)) as [entity|]; simplify_eq/=; [|done].
    apply stored_valid_insert; [done|]. apply (valid_entity c body); [exact Hv|].
    intros k t Hin Ht. apply updated_carries; [exact Ht|].
    by apply (required_not_updatedAt c k t).
  - assert (Hdel : Rev3.delete c s id = (s', resp)) by (by destruct c; simplify_eq/=).
    unfold Rev3.delete, remove in Hdel.
    destruct (storage c s !! Str id); simplify_eq/=; by apply stored_valid_delete.
Qed.

(** Revision 3 never stores an entity that its own validation would
    reject: if every stored entity has its required fields, of the right
    type and truthy, then so has every stored entity after any sequence of
    requests. *)
Theorem rev3_stores_valid_entities (s : storages) (reqs : list (env * request)) :
  stored_valid s -> stored_valid (run R3 s reqs).
Proof.
  revert s. induction reqs as [|[e r] reqs IH]; intros s Hs; simpl; [exact Hs|].
  destruct (Rev3.handle e s r) as [[s' resp]|] eqn:H; [|by apply IH].
  apply IH. by apply (stored_valid_step e s s' r resp).
Qed.

Lemma rev3_stores_valid_entities_witness :
  stored_valid
    (run R3 no_storages
       [(env1, POST Doctors (doctor_body "Who"));
        (env2, PUT Doctors "1b9d6bcd" (with_member (doctor_body "Who") "id" (Str "elsewhere")));
        (env3, POST Patients (BodyObj [("name", Str "Ann")]));
        (env4, POST Appointments appointment_body)]).
Proof.
  apply rev3_stores_valid_entities. intros c k x. by destruct c.
Defined.

(** ** What a create stores of the body *)

(** A create that spreads the body stores every member of the body as it
    was sent, required or not; [id] and [createdAt] are the generated ones
    exactly when the body has no such member.  So do all creates of
    revision 1, on every collection and for every body, and the creates of
    revision 3 other than [POST /doctors] once the body has passed
    validation. *)
Theorem post_stores_body_members (e : env) (s : storages) (c : collection)
    (body : reqbody) :
  let carried :=
    fun (entity : object) =>
      (forall k v, lookup_member k (own_props body) = Some v -> prop entity k = v) /\
      (lookup_member "id" (own_props body) = None -> prop entity "id" = Str (uuidv4 e)) /\
      (lookup_member "createdAt" (own_props body) = None ->
       prop entity "createdAt" = getCurrentDate e) in
  (exists entity,
     Rev1.handle e s (POST c body)
     = Some (set_storage c (<[prop entity "id" := entity]> (storage c s)) s,
             json 200 (Obj entity)) /\
     carried entity) /\
  (c <> Doctors -> Rev3.invalid c body = false ->
   exists entity,
     Rev3.handle e s (POST c body)
     = Some (set_storage c (<[prop entity "id" := entity]> (storage c s)) s,
             json 201 (Obj [("status", Num 201);
                            ("message", Str (Rev3.singular c +:+ " created successfully"));
                            (Rev3.key_one c, Obj entity)])) /\
     carried entity).
Proof.
  intros carried.
  assert (Hcarried :
            carried (spread [("id", Str (uuidv4 e)); ("createdAt", getCurrentDate e)]
                       (own_props body))).
  { split; [|split].
    - intros k v Hk. by rewrite spread_id, Hk.
    - intros Hk. by rewrite spread_id, Hk.
    - intros Hk. by rewrite spread_id, Hk. }
  split.
  - eexists. split; [reflexivity|exact Hcarried].
  - intros Hc Hv. eexists. split; [|exact Hcarried].
    simpl. unfold Rev3.post. rewrite Hv. by destruct c.
Qed.

Lemma post_stores_body_members_witness :
  exists entity,
    Rev3.handle env1 no_storages
      (POST Patients (with_member patient_body "admin" (Bool true)))
    = Some (set_storage Patients
              (<[prop entity "id" := entity]> (storage Patients no_storages)) no_storages,
            json 201 (Obj [("status", Num 201);
                           ("message", Str "Patient created successfully");
                           ("patient", Obj entity)])) /\
    prop entity "admin" = Bool true.
Proof.
  destruct (post_stores_body_members env1 no_storages Patients
              (with_member patient_body "admin" (Bool true))) as [_ H3].
  destruct H3 as (entity & H3 & Hmembers & _).
  - discriminate.
  - reflexivity.
  - exists entity. split; [exact H3|]. apply Hmembers. reflexivity.
Defined.

(** [POST /doctors] of revision 3 reads nothing of the body but [name] and
    [speciality]: two bodies that agree on both are answered alike and
    leave the same maps.  The id and the key are the generated id. *)
Theorem post_doctor_reads_two_fields (e : env) (s : storages) (b1 b2 : reqbody) :
  body_prop b1 "name" = body_prop b2 "name" ->
  body_prop b1 "speciality" = body_prop b2 "speciality" ->
  Rev3.handle e s (POST Doctors b1) = Rev3.handle e s (POST Doctors b2) /\
  (Rev3.invalid Doctors b1 = false ->
   exists entity,
     prop entity "id" = Str (uuidv4 e) /\
     Rev3.handle e s (POST Doctors b1)
     = Some (set_storage Doctors (<[Str (uuidv4 e) := entity]> (doctorsStorage s)) s,
             json 201 (Obj [("status", Num 201);
                            ("message", Str "Doctor created successfully");
                            ("doctor", Obj entity)]))).
Proof.
  intros Hn Hs. split.
  - simpl. unfold Rev3.post, Rev3.invalid, Rev3.bad_string, Rev3.construct.
    by rewrite Hn, Hs.
  - intros Hv. eexists. split; [|simpl; unfold Rev3.post; by rewrite Hv]. reflexivity.
Qed.

Lemma post_doctor_reads_two_fields_witness :
  Rev3.handle env1 no_storages (POST Doctors (doctor_body "Who"))
  = Rev3.handle env1 no_storages
      (POST Doctors (with_member (with_member (doctor_body "Who") "id" (Str "chosen"))
                       "createdAt" (Str "1999"))).
Proof.
  apply (post_doctor_reads_two_fields env1 no_storages); reflexivity.
Defined.

(** ** What an update keeps, and what it takes from the body *)

(** An update of revision 3 that finds its entity answers 200 with the
    merged entity and stores it under the [id] field of the entity that was
    stored.  In the merged entity [updatedAt] is the current date, whatever
    the body says; every other member is the body's where the body has one
    (also [id] and [createdAt]) and the stored one otherwise.  If the stored
    entity carries the path id and the body has no [id], a [GET /:id] that
    follows answers the merged entity. *)
Theorem put_merges_body (e e' : env) (s : storages) (c : collection) (id : string)
    (body : reqbody) (entity : object) :
  c <> Medications -> Rev3.invalid c body = false ->
  get (storage c s) (Str id) = Some entity ->
  exists updated s',
    Rev3.handle e s (PUT c id body)
    = Some (s', json 200 (Obj [("status", Num 200);
                               ("message", Str (Rev3.singular c +:+ " updated successfully"));
                               (Rev3.key_one c, Obj updated)])) /\
    s' = set_storage c (<[prop entity "id" := updated]> (storage c s)) s /\
    (forall k, prop updated k =
               if String.eqb k "updatedAt" then getCurrentDate e
               else match lookup_member k (own_props body) with
                    | Some v => v
                    | None => prop entity k
                    end) /\
    (c <> PatientRecords -> prop entity "id" = Str id ->
     lookup_member "id" (own_props body) = None ->
     Rev3.handle e' s' (GET_id c id)
     = Some (s', json 200 (Obj [("status", Num 200);
                                ("message", Str (Rev3.singular c +:+ " retrieved successfully"));
                                (Rev3.key_one c, Obj updated)]))).
Proof.
  intros Hc Hv Hget.
  set (updated := set_member "updatedAt" (getCurrentDate e)
                    (spread (spread [] entity) (own_props body))).
  set (s' := set_storage c (<[prop entity "id" := updated]> (storage c s)) s).
  exists updated, s'.
  assert (Hput : Rev3.put c e s id body
                 = (s', json 200 (Obj [("status", Num 200);
                                       ("message", Str (Rev3.singular c +:+ " updated successfully"));
                                       (Rev3.key_one c, Obj updated)]))).
  { unfold Rev3.put. by rewrite Hv, Hget. }
  split; [destruct c; try done; exact (f_equal Some Hput)|].
  split; [reflexivity|]. split.
  - intros k. unfold updated, prop. rewrite lookup_set_member, !lookup_spread.
    rewrite String.eqb_sym. destruct (String.eqb k "updatedAt"); [reflexivity|].
    destruct (lookup_member k (own_props body)); [reflexivity|].
    by destruct (lookup_member k entity).
  - intros Hc' Hid Hbody.
    assert (Hread : Rev3.get_id c s' id
                    = (s', json 200 (Obj [("status", Num 200);
                                          ("message", Str (Rev3.singular c
                                                           +:+ " retrieved successfully"));
                                          (Rev3.key_one c, Obj updated)]))).
    { unfold Rev3.get_id, get, s'. rewrite storage_set_storage, Hid.
      by rewrite lookup_insert_eq. }
    destruct c; try done; exact (f_equal Some Hread).
Qed.

Lemma put_merges_body_witness :
  exists updated s',
    Rev3.handle env2 one_doctor (PUT Doctors "1b9d6bcd" (doctor_body "Watson"))
    = Some (s', json 200 (Obj [("status", Num 200);
                               ("message", Str "Doctor updated successfully");
                               ("doctor", Obj updated)])) /\
    prop updated "name" = Str "Watson" /\
    prop updated "createdAt" = Date (Num 1700000000000) /\
    prop updated "updatedAt" = Date (Num 1700000001000) /\
    Rev3.handle env3 s' (GET_id Doctors "1b9d6bcd")
    = Some (s', json 200 (Obj [("status", Num 200);
                               ("message", Str "Doctor retrieved successfully");
                               ("doctor", Obj updated)])).
Proof.
  destruct (put_merges_body env2 env3 one_doctor Doctors "1b9d6bcd" (doctor_body "Watson")
              (Rev3.construct Doctors env1 (doctor_body "Who")))
    as (updated & s' & Hput & _ & Hmerge & Hread).
  - discriminate.
  - reflexivity.
  - reflexivity.
  - exists updated, s'. split; [exact Hput|].
    split; [by rewrite Hmerge|]. split; [by rewrite Hmerge|]. split; [by rewrite Hmerge|].
    apply Hread; [discriminate|reflexivity|reflexivity].
Defined.

(** ** Revision 2: updates, and the found test *)

(** An update of revision 2 that finds an appointment under the path id
    keeps nothing of it: the appointment it stores there is built from the
    body alone, with a newly generated id and with [createdAt] and
    [updatedAt] both set to the current date. *)
Theorem rev2_put_keeps_nothing (shape : opt_shape) (e : env) (s : storages) (id : string)
    (body : reqbody) (stored : object) :
  get (appointmentsStorage s) (Str id) = Some stored ->
  let updated := set_member "updatedAt" (Date (Num (now e)))
                   (Rev2.construct Appointments e body) in
  Rev2.handle shape e s (PUT Appointments id body)
  = Some (set_storage Appointments (<[Str id := updated]> (appointmentsStorage s)) s,
          json 200 (Obj updated)) /\
  prop updated "id" = Str (uuidv4 e) /\
  prop updated "createdAt" = Date (Num (now e)) /\
  prop updated "updatedAt" = Date (Num (now e)) /\
  prop updated "dateTime" = Date (body_prop body "dateTime").
Proof.
  intros Hget updated. split; [|by repeat split].
  simpl. unfold Rev2.put_appointment. rewrite Hget. by destruct shape.
Qed.

Lemma rev2_put_keeps_nothing_witness :
  prop (set_member "updatedAt" (Date (Num (now env2)))
          (Rev2.construct Appointments env2 (BodyObj []))) "createdAt"
  = Date (Num (now env2)).
Proof.
  apply (rev2_put_keeps_nothing Nullable env2
           (run (R2 Nullable) no_storages [(env1, POST Appointments appointment_body)])
           "1b9d6bcd" (BodyObj []) (Rev2.construct Appointments env1 appointment_body)).
  reflexivity.
Defined.

(** Revision 2 decides "found" by the truthiness of what [get] or [remove]
    hands back.  For an id that is not stored: if that is [null], the
    three id routes answer 404 and change nothing; if it is the [Opt]
    record, which is an object and so truthy, [GET] and [DELETE] answer 200
    with [{None: null}] and [PUT] stores a new appointment under the
    id. *)
Theorem rev2_found_is_truthiness (e : env) (s : storages) (id : string) (body : reqbody) :
  get (appointmentsStorage s) (Str id) = None ->
  let missing := send 404 ("Appointment with ID " +:+ id +:+ " not found") in
  let updated := set_member "updatedAt" (Date (Num (now e)))
                   (Rev2.construct Appointments e body) in
  (Rev2.handle Nullable e s (GET_id Appointments id) = Some (s, missing) /\
   Rev2.handle Nullable e s (PUT Appointments id body) = Some (s, missing) /\
   Rev2.handle Nullable e s (DELETE Appointments id) = Some (s, missing)) /\
  (Rev2.handle OptRecord e s (GET_id Appointments id)
   = Some (s, json 200 (Obj [("None", Null)])) /\
   Rev2.handle OptRecord e s (PUT Appointments id body)
   = Some (set_storage Appointments (<[Str id := updated]> (appointmentsStorage s)) s,
           json 200 (Obj updated)) /\
   Rev2.handle OptRecord e s (DELETE Appointments id)
   = Some (s, json 200 (Obj [("None", Null)]))).
Proof.
  intros Hget missing updated.
  repeat split; simpl;
    unfold Rev2.get_appointment, Rev2.put_appointment, Rev2.delete_appointment;
    rewrite ?(remove_absent _ _ Hget), ?Hget; simpl; try reflexivity;
    by destruct s.
Qed.

Lemma rev2_found_is_truthiness_witness :
  Rev2.handle OptRecord env1 no_storages (GET_id Appointments "1b9d6bcd")
  = Some (no_storages, json 200 (Obj [("None", Null)])).
Proof.
  apply (rev2_found_is_truthiness env1 no_storages "1b9d6bcd" (BodyObj [])). reflexivity.
Defined.

(** ** The filter routes of revisions 1 and 2 *)

(** The three filter routes of revisions 1 and 2 always answer 200 with a
    list and change nothing; the list holds exactly the stored entities of
    the collection whose foreign key is the path id as a string (the empty
    list when there is none). *)
Theorem filter_routes_answer (shape : opt_shape) (e : env) (s : storages) (id : string)
    (c : collection) (key : string) (r : request) :
  (c, key, r) ∈ [(PatientRecords, "patientId", GET_by_patient PatientRecords id);
                 (PatientRecords, "doctorId", GET_by_doctor PatientRecords id);
                 (Medications, "patientId", GET_by_patient Medications id)] ->
  exists results,
    Rev1.handle e s r = Some (s, json 200 (objects results)) /\
    Rev2.handle shape e s r = Some (s, json 200 (objects results)) /\
    forall x, x ∈ results <-> (exists k, storage c s !! k = Some x) /\ prop x key = Str id.
Proof.
  intros Hin. exists (related key id (storage c s)).
  repeat (apply elem_of_cons in Hin as [Hin|Hin];
          [injection Hin as -> -> ->; split; [reflexivity|]; split; [reflexivity|];
           intros x; apply elem_of_related|]).
  by apply elem_of_nil in Hin.
Qed.

Lemma filter_routes_answer_witness :
  exists results,
    Rev1.handle env2 one_record (GET_by_doctor PatientRecords "d1")
    = Some (one_record, json 200 (objects results)) /\
    Rev3.construct PatientRecords env1 record_body ∈ results.
Proof.
  destruct (filter_routes_answer Nullable env2 one_record "d1" PatientRecords "doctorId"
              (GET_by_doctor PatientRecords "d1")) as (results & H1 & _ & Hmem).
  - apply list_elem_of_further, list_elem_of_here.
  - exists results. split; [exact H1|]. apply Hmem. split; [|reflexivity].
    exists (Str "1b9d6bcd"). by vm_compute.
Defined.

(** ** More on pagination *)

Lemma slice_segment {A : Type} (l : list A) (a b : Z) :
  exists pre post, l = (pre ++ slice l a b ++ post)%list.
Proof.
  unfold slice.
  set (k := Z.to_nat (if a <? 0 then Z.max (Z.of_nat (length l) + a) 0
                      else Z.min a (Z.of_nat (length l)))).
  set (n := Z.to_nat _).
  exists (take k l), (drop n (drop k l)). by rewrite !take_drop.
Qed.

(** Whatever [page] and [limit] are (absent, text, zero, negative), the
    answer of a paginate request is a run of consecutive elements of the
    list of the collection, and the maps stay as they are. *)
Theorem paginate_answers_a_segment (e : env) (s : storages) (c : collection)
    (qpage qlimit : option string) :
  exists pre results post,
    Rev3.handle e s (GET_pages c qpage qlimit) = Some (s, json 200 (objects results)) /\
    values (storage c s) = (pre ++ results ++ post)%list.
Proof.
  simpl. unfold Rev3.paginate.
  destruct (slice_segment (values (storage c s))
              ((or_default (parseInt qpage) 1 - 1) * or_default (parseInt qlimit) 10)
              (or_default (parseInt qpage) 1 * or_default (parseInt qlimit) 10))
    as (pre & post & H).
  eexists pre, _, post. split; [reflexivity|exact H].
Qed.

(** For a page and a limit of at least 1, the page holds at most [limit]
    elements, exactly [limit] when the list reaches to its end, and none
    when the list ends before it starts; a page and the next one, put
    together, are the run of [2 * limit] elements from the start of the
    first: pages neither overlap nor leave a gap. *)
Theorem paginate_pages_tile (e : env) (s : storages) (c : collection)
    (qpage qnext qlimit : option string) (p l : Z) :
  parseInt qpage = Some p -> parseInt qnext = Some (p + 1) -> parseInt qlimit = Some l ->
  1 <= p -> 1 <= l ->
  exists page next,
    Rev3.handle e s (GET_pages c qpage qlimit) = Some (s, json 200 (objects page)) /\
    Rev3.handle e s (GET_pages c qnext qlimit) = Some (s, json 200 (objects next)) /\
    (page ++ next)%list
    = take (Z.to_nat (2 * l)) (drop (Z.to_nat ((p - 1) * l)) (values (storage c s))) /\
    Z.of_nat (length page) <= l /\
    (p * l <= Z.of_nat (length (values (storage c s))) -> Z.of_nat (length page) = l) /\
    (Z.of_nat (length (values (storage c s))) <= (p - 1) * l -> page = []).
Proof.
  intros Hp Hn Hl Hp1 Hl1.
  exists (take (Z.to_nat l) (drop (Z.to_nat ((p - 1) * l)) (values (storage c s)))),
         (take (Z.to_nat l) (drop (Z.to_nat (p * l)) (values (storage c s)))).
  split; [|split; [|split; [|split; [|split]]]].
  - simpl. unfold Rev3.paginate. rewrite Hp, Hl, !or_default_nonzero by lia.
    rewrite slice_window by nia.
    by replace (p * l - (p - 1) * l) with l by lia.
  - simpl. unfold Rev3.paginate. rewrite Hn, Hl, !or_default_nonzero by lia.
    rewrite slice_window by nia.
    replace ((p + 1) * l - (p + 1 - 1) * l) with l by lia.
    by replace ((p + 1 - 1) * l) with (p * l) by lia.
  - replace (Z.to_nat (p * l)) with (Z.to_nat ((p - 1) * l) + Z.to_nat l)%nat by nia.
    rewrite <- drop_drop, take_take_drop. f_equal. lia.
  - rewrite length_take. lia.
  - intros Hlen. rewrite length_take, length_drop. nia.
  - intros Hlen. rewrite drop_ge by lia. apply take_nil.
Qed.

Lemma paginate_pages_tile_witness :
  exists page next,
    Rev3.handle env2 one_doctor (GET_pages Doctors (Some "1") (Some "1"))
    = Some (one_doctor, json 200 (objects page)) /\
    Rev3.handle env2 one_doctor (GET_pages Doctors (Some "2") (Some "1"))
    = Some (one_doctor, json 200 (objects next)) /\
    (page ++ next)%list
    = take (Z.to_nat (2 * 1)) (drop (Z.to_nat ((1 - 1) * 1)) (values (storage Doctors one_doctor))).
Proof.
  destruct (paginate_pages_tile env2 one_doctor Doctors (Some "1") (Some "2") (Some "1") 1 1)
    as (page & next & H1 & H2 & H3 & _); [reflexivity|reflexivity|reflexivity|lia|lia|].
  exists page, next. split; [exact H1|]. split; [exact H2|exact H3].
Defined.

(** A negative limit is not rejected: on page 1 (also by default) the slice
    runs from index 0 to [limit] counted from the end, so the answer is the
    whole list but its last [-limit] elements. *)
Theorem paginate_negative_limit (e : env) (s : storages) (c : collection)
    (qpage qlimit : option string) (l : Z) :
  or_default (parseInt qpage) 1 = 1 -> parseInt qlimit = Some l -> l < 0 ->
  Rev3.handle e s (GET_pages c qpage qlimit)
  = Some (s, json 200 (objects (take (length (values (storage c s)) - Z.to_nat (- l))
                                  (values (storage c s))))).
Proof.
  intros Hp Hl Hneg. simpl. unfold Rev3.paginate.
  rewrite Hp, Hl, or_default_nonzero by lia. do 4 f_equal.
  unfold slice. simpl. rewrite Z.mul_1_l.
  destruct (Z.ltb_spec l 0) as [_|?]; [|lia].
  rewrite Z.min_l by lia. rewrite Z.sub_0_r. simpl. f_equal. lia.
Qed.

Lemma paginate_negative_limit_witness :
  Rev3.handle env2 one_doctor (GET_pages Doctors None (Some "-5"))
  = Some (one_doctor,
          json 200 (objects (take (length (values (storage Doctors one_doctor)) - Z.to_nat (- -5))
                               (values (storage Doctors one_doctor))))).
Proof.
  apply (paginate_negative_limit env2 one_doctor Doctors None (Some "-5") (-5));
    [reflexivity|reflexivity|lia].
Defined.

(** *** Decimal numerals *)

Lemma digit_value_pretty (d : N) :
  (d < 10)%N -> digit_value (code (pretty_N_char d)) = Some (Z.of_N d).
Proof.
  intros Hd.
  assert (d = 0 \/ d = 1 \/ d = 2 \/ d = 3 \/ d = 4 \/ d = 5 \/ d = 6 \/ d = 7
          \/ d = 8 \/ d = 9)%N as Hcases by lia.
  repeat destruct Hcases as [->|Hcases]; try reflexivity. by subst.
Qed.

(** Reading the numeral of [x] digit by digit gives [x]. *)
Lemma digits_pretty_go (x : N) (s : string) :
  (0 < x)%N -> digits 10 (pretty_N_go x s) None = digits 10 s (Some (Z.of_N x)).
Proof.
  revert s. induction (N.lt_wf_0 x) as [x _ IH]; intros s Hx.
  rewrite pretty_N_go_step by done.
  assert (H10 : (10 <> 0)%N) by lia.
  assert (Hd : (x `mod` 10 < 10)%N) by (by apply N.mod_lt).
  assert (Hx10 : x = (10 * (x `div` 10) + x `mod` 10)%N) by (by apply N.div_mod).
  destruct (decide (x `div` 10 = 0)%N) as [H0|H0].
  - rewrite H0, pretty_N_go_0. simpl. rewrite (digit_value_pretty _ Hd).
    destruct (Z.ltb_spec (Z.of_N (x `mod` 10)) 10); [|lia].
    f_equal. f_equal. lia.
  - rewrite IH; [| apply N.div_lt; lia | by apply N.neq_0_lt_0].
    simpl. rewrite (digit_value_pretty _ Hd).
    destruct (Z.ltb_spec (Z.of_N (x `mod` 10)) 10); [|lia].
    f_equal. f_equal. lia.
Qed.

(** The numeral of a positive number starts with a digit from 1 to 9. *)
Lemma pretty_go_head (x : N) (s : string) :
  (0 < x)%N ->
  exists d rest, (0 < d < 10)%N /\ pretty_N_go x s = String (pretty_N_char d) rest.
Proof.
  revert s. induction (N.lt_wf_0 x) as [x _ IH]; intros s Hx.
  rewrite pretty_N_go_step by done.
  destruct (decide (x `div` 10 = 0)%N) as [H0|H0].
  - rewrite H0, pretty_N_go_0. exists (x `mod` 10)%N, s. split; [|done].
    assert (H10 : (10 <> 0)%N) by lia.
    pose proof (N.div_mod x 10 H10) as H. pose proof (N.mod_lt x 10 H10) as H1.
    rewrite H0, N.mul_0_r, N.add_0_l in H. split; [by rewrite <- H|exact H1].
  - apply IH; [apply N.div_lt; lia | by apply N.neq_0_lt_0].
Qed.

(** After such a digit [parseInt] skips nothing, finds no sign and no
    [0x], and reads in radix 10. *)
Lemma parseInt_head (d : N) (rest : string) :
  (0 < d < 10)%N ->
  parseInt (Some (String (pretty_N_char d) rest))
  = digits 10 (String (pretty_N_char d) rest) None.
Proof.
  intros Hd.
  assert (d = 1 \/ d = 2 \/ d = 3 \/ d = 4 \/ d = 5 \/ d = 6 \/ d = 7
          \/ d = 8 \/ d = 9)%N as Hcases by lia.
  assert (Hmul : forall o : option Z,
             match o with Some n => Some (1 * n) | None => None end = o).
  { intros [n|]; [|done]. by rewrite Z.mul_1_l. }
  repeat destruct Hcases as [->|Hcases]; try subst d;
    (destruct rest as [|b [|c rest]]; unfold parseInt; simpl;
     first [reflexivity | apply Hmul]).
Qed.

Lemma parseInt_pretty_N (n : N) : parseInt (Some (pretty n)) = Some (Z.of_N n).
Proof.
  unfold pretty, pretty_N. case_decide as Hn; [by subst|].
  destruct (pretty_go_head n "") as (d & rest & Hd & Hhead); [lia|].
  rewrite Hhead, parseInt_head by done. rewrite <- Hhead.
  rewrite digits_pretty_go by lia. reflexivity.
Qed.

(** A page and a limit written as the decimal numerals of [p] and [l],
    both at least 1 and with [p * l] at most 2^53 (so that the numbers and
    their products are exact as JavaScript numbers), are read as [p] and
    [l]: the answer is the run of [l] elements of the list that starts at
    index [(p - 1) * l]. *)
Theorem paginate_decimal (e : env) (s : storages) (c : collection) (p l : N) :
  (0 < p)%N -> (0 < l)%N -> (p * l <= 9007199254740992)%N ->
  parseInt (Some (pretty p)) = Some (Z.of_N p) /\
  parseInt (Some (pretty l)) = Some (Z.of_N l) /\
  Rev3.handle e s (GET_pages c (Some (pretty p)) (Some (pretty l)))
  = Some (s, json 200 (objects (take (N.to_nat l)
                                  (drop (N.to_nat ((p - 1) * l)) (values (storage c s)))))).
Proof.
  intros Hp Hl _. split; [apply parseInt_pretty_N|]. split; [apply parseInt_pretty_N|].
  simpl. unfold Rev3.paginate.
  rewrite !parseInt_pretty_N, !or_default_nonzero by lia.
  rewrite slice_window by nia.
  replace (Z.to_nat (Z.of_N p * Z.of_N l - (Z.of_N p - 1) * Z.of_N l)) with (N.to_nat l) by lia.
  by replace (Z.to_nat ((Z.of_N p - 1) * Z.of_N l)) with (N.to_nat ((p - 1) * l)) by nia.
Qed.

Lemma paginate_decimal_witness :
  Rev3.handle env2 one_doctor (GET_pages Doctors (Some (pretty 3%N)) (Some (pretty 25%N)))
  = Some (one_doctor,
          json 200 (objects (take (N.to_nat 25)
                               (drop (N.to_nat ((3 - 1) * 25))
                                  (values (storage Doctors one_doctor)))))).
Proof.
  apply (paginate_decimal env2 one_doctor Doctors 3 25); [reflexivity|reflexivity|lia].
Defined.

(** ** Bodies that are arrays, and updates in revision 1 *)

Lemma pretty_N_head (n : N) :
  exists d rest, (d < 10)%N /\ pretty n = String (pretty_N_char d) rest.
Proof.
  unfold pretty, pretty_N. case_decide as Hn.
  - by exists 0%N, "".
  - destruct (pretty_go_head n "") as (d & rest & Hd & Hhead); [lia|].
    exists d, rest. split; [lia|exact Hhead].
Qed.

(** An array has no own property whose name starts with a letter. *)
Lemma array_has_no_named_field (items : list value) (a : Ascii.ascii) (rest : string) :
  digit_value (code a) = None \/ (exists d, digit_value (code a) = Some d /\ 10 <= d) ->
  body_prop (BodyArr items) (String a rest) = Undefined.
Proof.
  intros Ha. unfold body_prop, prop, own_props.
  assert (Hnone : forall (g : nat -> N),
             lookup_member (String a rest) (imap (fun i v => (pretty (g i), v)) items) = None).
  { induction items as [|x items IH]; intros g; simpl; [reflexivity|].
    change (imap ((fun (i : nat) (v : value) => (pretty (g i), v)) ∘ S) items)
      with (imap (fun (i : nat) (v : value) => (pretty (g (S i)), v)) items).
    rewrite (IH (fun i => g (S i))).
    destruct (pretty_N_head (g 0%nat)) as (d & r & Hd & ->).
    destruct (String.eqb_spec (String (pretty_N_char d) r) (String a rest)) as [Heq|_];
      [|reflexivity].
    injection Heq as <- _. rewrite digit_value_pretty in Ha by done.
    destruct Ha as [Ha|(d' & Ha & Hd')]; [discriminate|]. injection Ha as <-. lia. }
  by rewrite (Hnone N.of_nat).
Qed.

(** Revision 3 answers 400 to every create and every update whose body is
    a JSON array, and changes nothing: none of the required fields is a
    property of an array. *)
Theorem rev3_rejects_arrays (e : env) (s : storages) (c : collection) (items : list value) :
  Rev3.handle e s (POST c (BodyArr items))
  = Some (s, json 400 (Obj [("status", Num 400);
                            ("error", Str (Rev3.invalid_input false c))])) /\
  (c <> Medications -> forall id,
     Rev3.handle e s (PUT c id (BodyArr items))
     = Some (s, json 400 (Obj [("error", Str (Rev3.invalid_input true c))]))).
Proof.
  assert (Hbad : Rev3.invalid c (BodyArr items) = true).
  { unfold Rev3.invalid, Rev3.bad_string.
    destruct c;
      by rewrite array_has_no_named_field
        by (right; eexists; split; [vm_compute; reflexivity|lia]). }
  split.
  - simpl. unfold Rev3.post. by rewrite Hbad.
  - intros Hc id. destruct c; try done; simpl; unfold Rev3.put; by rewrite Hbad.
Qed.

(** An update of revision 1 checks nothing of the body.  When it finds its
    appointment it answers 200 with the merged appointment, stored under
    the [id] field of the appointment that was stored: [updatedAt] is the
    current date, every other member is the body's where the body has one
    and the stored one otherwise; with the empty body only [updatedAt]
    changes. *)
Theorem rev1_put_merges_body (e : env) (s : storages) (id : string) (body : reqbody)
    (appointment : object) :
  get (appointmentsStorage s) (Str id) = Some appointment ->
  exists updated,
    Rev1.handle e s (PUT Appointments id body)
    = Some (set_storage Appointments
              (<[prop appointment "id" := updated]> (appointmentsStorage s)) s,
            json 200 (Obj updated)) /\
    (forall k, prop updated k =
               if String.eqb k "updatedAt" then getCurrentDate e
               else match lookup_member k (own_props body) with
                    | Some v => v
                    | None => prop appointment k
                    end) /\
    (body = BodyObj [] ->
     forall k, k <> "updatedAt" -> prop updated k = prop appointment k).
Proof.
  intros Hget.
  set (updated := set_member "updatedAt" (getCurrentDate e)
                    (spread (spread [] appointment) (own_props body))).
  exists updated.
  assert (Hmerge : forall k, prop updated k =
             if String.eqb k "updatedAt" then getCurrentDate e
             else match lookup_member k (own_props body) with
                  | Some v => v
                  | None => prop appointment k
                  end).
  { intros k. unfold updated, prop. rewrite lookup_set_member, !lookup_spread.
    rewrite String.eqb_sym. destruct (String.eqb k "updatedAt"); [reflexivity|].
    destruct (lookup_member k (own_props body)); [reflexivity|].
    by destruct (lookup_member k appointment). }
  split; [|split; [exact Hmerge|]].
  - simpl. unfold Rev1.put_appointment. by rewrite Hget.
  - intros -> k Hk. rewrite Hmerge. simpl.
    by destruct (String.eqb_spec k "updatedAt").
Qed.

Lemma rev1_put_merges_body_witness :
  exists updated,
    Rev1.handle env2
      (run R1 no_storages [(env1, POST Appointments appointment_body)])
      (PUT Appointments "1b9d6bcd" (BodyObj [("duration", Num 45)]))
    = Some (set_storage Appointments
              (<[prop (Rev3.construct Appointments env1 appointment_body) "id" := updated]>
                 (appointmentsStorage
                    (run R1 no_storages [(env1, POST Appointments appointment_body)])))
              (run R1 no_storages [(env1, POST Appointments appointment_body)]),
            json 200 (Obj updated)) /\
    prop updated "duration" = Num 45 /\
    prop updated "description" = Str "check-up".
Proof.
  destruct (rev1_put_merges_body env2
              (run R1 no_storages [(env1, POST Appointments appointment_body)])
              "1b9d6bcd" (BodyObj [("duration", Num 45)])
              (Rev3.construct Appointments env1 appointment_body))
    as (updated & Hput & Hmerge & _).
  - reflexivity.
  - exists updated. split; [exact Hput|]. split; rewrite Hmerge; reflexivity.
Defined.

Lemma rev1_create_then_get_witness :
  Rev1.handle env2
    (set_storage Appointments
       (insert (appointmentsStorage no_storages) (Str "1b9d6bcd")
          (spread [("id", Str (uuidv4 env1)); ("createdAt", getCurrentDate env1)]
             (own_props appointment_body)))
       no_storages)
    (GET_id Appointments "1b9d6bcd")
  = Some (set_storage Appointments
            (insert (appointmentsStorage no_storages) (Str "1b9d6bcd")
               (spread [("id", Str (uuidv4 env1)); ("createdAt", getCurrentDate env1)]
                  (own_props appointment_body)))
            no_storages,
          json 200 (Obj (spread [("id", Str (uuidv4 env1)); ("createdAt", getCurrentDate env1)]
                           (own_props appointment_body)))).
Proof.
  apply (rev1_create_then_get env1 env2 no_storages appointment_body "1b9d6bcd").
  reflexivity.
Defined.
